(** * Cart service of skinalyze-be-v2: a shallow embedding and its properties

    The development follows the class [CartService] of cart.service.ts
    (in the sources it is the second document of
    src/orders/dto/ghn-webhook.dto.ts), method by method.  The service
    keeps one [Cart] record per user in a key-value cache, and talks to
    three collaborators: the cache manager, the product catalogue and the
    inventory service.  Every call of a collaborator is recorded as an
    [event], so that statements about "which calls were issued" are
    statements about the list of events of a run.

    Numbers.  A TypeScript [number] that holds money is written as a
    rational ([Q]); quantities, timestamps and time-to-live values are
    integers ([Z]).  The one place where the service computes with
    fractions, the discount of [calculateFinalPrice], is carried out in
    IEEE 754 binary64, as JavaScript does: the operands are the doubles
    nearest to the rationals, the three operations round as the standard
    prescribes ([SpecFloat], at precision 53), and [Math.round] is applied
    to the double that results.  [NaN] and the infinities have no value
    in [Q]; the sums of the totals are exact. *)

From Stdlib Require Import ZArith QArith Qround Lia Lqa.
From Stdlib Require SpecFloat.
From stdpp Require Import base option list strings pretty gmap.

Local Open Scope Z_scope.

(** ** Data model (interfaces/cart-item.interface.ts, dto/) *)

Record CartItem := mkCartItem {
  productId : string;
  productName : string;
  price : Q;
  originalPrice : Q;
  salePercentage : Q;
  quantity : Z;
  addedAt : Z;
  (* [selected?: boolean]: [None] is an absent (undefined) flag *)
  selected : option bool
}.

Record Cart := mkCart {
  userId : string;
  items : list CartItem;
  totalItems : Z;
  totalPrice : Q;
  updatedAt : Z
}.

(** The part of a catalogue product that the cart reads. *)
Record Product := mkProduct {
  prod_productName : string;
  prod_sellingPrice : Q;
  (* [salePercentage: number | null] *)
  prod_salePercentage : option Q
}.

Record AddToCartDto := mkAddToCartDto {
  dto_productId : string;
  dto_quantity : Z
}.

Record UpdateCartItemDto := mkUpdateCartItemDto {
  upd_quantity : Z
}.

(** Exceptions thrown by the service or by a collaborator. *)
Inductive Exn :=
| NotFoundException (message : string)
| BadRequestException (message : string)
| TypeError
| InternalError (message : string).

(** A value held by the cache: a cart, or a plain string (the connection
    probe of [addToCart] stores the string 'test'). *)
Inductive entry :=
| ECart (c : Cart)
| EText (s : string).

(** ** Calls to collaborators *)

Inductive event :=
| CacheGet (key : string)
| CacheSet (key : string) (value : entry) (ttl : Z)
| CacheDel (key : string)
| FindOne (pid : string)
| ReserveStock (pid : string) (qty : Z)
| ReleaseReservation (pid : string) (qty : Z).

(** The inventory service is not part of the cart module; the cart only
    relies on its interface.  [reserveStock] answers [{success}];
    [releaseReservation] returns nothing, so the only way it can report a
    failure is to throw ([Some e]). *)
Class InventoryService := {
  inv_state : Type;
  inv_reserveStock : string -> Z -> inv_state -> bool * inv_state;
  inv_releaseReservation : string -> Z -> inv_state -> option Exn * inv_state
}.

(** ** JavaScript primitives used by the service *)

(** [x || 0] on a number: a falsy number (zero) is replaced by [0]. *)
Definition or_zero (x : Q) : Q := if Qeq_bool x 0 then 0%Q else x.

(** [x || 0] on [number | null]. *)
Definition or_zero_opt (x : option Q) : Q :=
  match x with
  | None => 0%Q
  | Some q => or_zero q
  end.

(** [Math.round]: the nearest integer, a half rounds towards plus infinity. *)
Definition Math_round (x : Q) : Q := inject_Z (Qfloor (x + (1 # 2))).

(** A JavaScript number in the middle of a computation: an IEEE 754
    binary64 value. *)
Definition number : Type := SpecFloat.spec_float.

Definition binary64_prec : Z := 53.
Definition binary64_emax : Z := 1024.

Definition number_zero : number := SpecFloat.S754_zero false.

(** The number that a rational stands for: the double nearest to it (ties
    to even), which is what reading its decimal literal gives.  The
    quotient of the numerator by the denominator is rounded once. *)
Definition number_of_Q (q : Q) : number :=
  match Qnum q with
  | Z0 => number_zero
  | Zpos n =>
      SpecFloat.SFdiv binary64_prec binary64_emax
                      (SpecFloat.S754_finite false n 0)
                      (SpecFloat.S754_finite false (Qden q) 0)
  | Zneg n =>
      SpecFloat.SFdiv binary64_prec binary64_emax
                      (SpecFloat.S754_finite true n 0)
                      (SpecFloat.S754_finite false (Qden q) 0)
  end.

(** The exact value of a finite number; [NaN] and the infinities have none. *)
Definition number_value (x : number) : option Q :=
  match x with
  | SpecFloat.S754_zero _ => Some 0%Q
  | SpecFloat.S754_finite s m e =>
      let n := if s then Zneg m else Zpos m in
      Some match e with
           | Z0 => n # 1
           | Zpos k => (n * Z.pow_pos 2 k) # 1
           | Zneg k => n # (Pos.pow 2 k)
           end
  | SpecFloat.S754_infinity _ | SpecFloat.S754_nan => None
  end.

(** [x * y], [x / y] and [x - y] on numbers. *)
Definition number_mul : number -> number -> number :=
  SpecFloat.SFmul binary64_prec binary64_emax.

Definition number_div : number -> number -> number :=
  SpecFloat.SFdiv binary64_prec binary64_emax.

Definition number_sub : number -> number -> number :=
  SpecFloat.SFsub binary64_prec binary64_emax.

(** [x <= y] and [x < y] on numbers; both are false when one side is [NaN]. *)
Definition number_leb : number -> number -> bool := SpecFloat.SFleb.

Definition number_ltb : number -> number -> bool := SpecFloat.SFltb.

(** [!x] on a number: true for the two zeros and for [NaN]. *)
Definition falsy (x : number) : bool :=
  match x with
  | SpecFloat.S754_zero _ | SpecFloat.S754_nan => true
  | SpecFloat.S754_infinity _ | SpecFloat.S754_finite _ _ _ => false
  end.

(** [Array.prototype.findIndex]; [None] stands for the result [-1]. *)
Fixpoint findIndex {A} (p : A -> bool) (l : list A) : option nat :=
  match l with
  | [] => None
  | x :: l' => if p x then Some O else S <$> findIndex p l'
  end.

(** [Array.prototype.reduce] with an initial value. *)
Definition reduce {A B} (f : B -> A -> B) (l : list A) (init : B) : B :=
  fold_left f l init.

(** [Array.prototype.includes] on a list of strings. *)
Definition includes (l : list string) (s : string) : bool :=
  existsb (String.eqb s) l.

(** ** calculateFinalPrice *)

(** The three operations are those of JavaScript numbers.  The result of
    [Math.round] is a whole number, written back as a rational; a result
    that is not finite has no rational, [0] stands in for it. *)
Definition calculateFinalPrice (sellingPrice : Q) (salePct : option Q) : Q :=
  match salePct with
  | None => sellingPrice
  | Some pct =>
      let salePercentage := number_of_Q pct in
      (* [!salePercentage || salePercentage <= 0] *)
      if falsy salePercentage || number_leb salePercentage number_zero
      then sellingPrice
      else
        let price := number_of_Q sellingPrice in
        let discount :=
          number_div (number_mul price salePercentage) (number_of_Q 100) in
        let finalPrice := number_sub price discount in
        match number_value finalPrice with
        | Some v => Math_round v
        | None => 0%Q
        end
  end.

(** The message of the exception for a refused reservation in [addToCart]:
    "not enough goods in stock". *)
Definition insufficient_stock_message : string := "Không đủ hàng trong kho".

(** What a method call ends in: a value, or an exception. *)
Inductive Res (A : Type) :=
| Ok (a : A)
| Throw (e : Exn).
Arguments Ok {A} a.
Arguments Throw {A} e.

(** ** The world of a request, and the monad of service methods *)

Section Service.
Context `{Inv : InventoryService}.

(** What a request can observe and change: the cache, the catalogue, the
    inventory and the clock. *)
Record World := mkWorld {
  cache : gmap string entry;
  catalog : string -> option Product;
  inventory : inv_state;
  clock : Z
}.

(** The outcome of running a method: what it returned or threw, the world
    it left, and the collaborator calls it made, in order. *)
Record Outcome (A : Type) := mkOutcome {
  result : Res A;
  final : World;
  events : list event
}.
Arguments mkOutcome {A}.
Arguments result {A}.
Arguments final {A}.
Arguments events {A}.

Definition M (A : Type) : Type := World -> Outcome A.

Definition ret {A} (a : A) : M A := fun w => mkOutcome (Ok a) w [].

Definition throw {A} (e : Exn) : M A := fun w => mkOutcome (Throw e) w [].

(** [await m; k]: an exception of [m] skips [k]. *)
Definition bind {A B} (m : M A) (k : A -> M B) : M B := fun w =>
  match m w with
  | mkOutcome (Ok a) w1 ev1 =>
      match k a w1 with
      | mkOutcome r w2 ev2 => mkOutcome r w2 (ev1 ++ ev2)
      end
  | mkOutcome (Throw e) w1 ev1 => mkOutcome (Throw e) w1 ev1
  end.

Notation "'do' x <- m ; k" := (bind m (fun x => k))
  (at level 10, x name, m at level 100, k at level 200).
Notation "'do_' m ; k" := (bind m (fun _ => k))
  (at level 10, m at level 100, k at level 200).

Definition set_cache (w : World) (c : gmap string entry) : World :=
  mkWorld c (catalog w) (inventory w) (clock w).

Definition set_inventory (w : World) (i : inv_state) : World :=
  mkWorld (cache w) (catalog w) i (clock w).

(** [cacheManager.get(key)] *)
Definition cache_get (key : string) : M (option entry) := fun w =>
  mkOutcome (Ok (cache w !! key)) w [CacheGet key].

(** [cacheManager.set(key, value, ttl)] *)
Definition cache_set (key : string) (value : entry) (ttl : Z) : M unit := fun w =>
  mkOutcome (Ok tt) (set_cache w (<[key := value]> (cache w)))
            [CacheSet key value ttl].

(** [cacheManager.del(key)] *)
Definition cache_del (key : string) : M unit := fun w =>
  mkOutcome (Ok tt) (set_cache w (delete key (cache w))) [CacheDel key].

(** [productsService.findOne(productId)] *)
Definition findOne (pid : string) : M (option Product) := fun w =>
  mkOutcome (Ok (catalog w pid)) w [FindOne pid].

(** [inventoryService.reserveStock(productId, quantity)], the [success]
    field of its answer. *)
Definition reserveStock (pid : string) (qty : Z) : M bool := fun w =>
  let '(success, i) := inv_reserveStock pid qty (inventory w) in
  mkOutcome (Ok success) (set_inventory w i) [ReserveStock pid qty].

(** [inventoryService.releaseReservation(productId, quantity)] *)
Definition releaseReservation (pid : string) (qty : Z) : M unit := fun w =>
  let '(failure, i) := inv_releaseReservation pid qty (inventory w) in
  mkOutcome (match failure with Some e => Throw e | None => Ok tt end)
            (set_inventory w i) [ReleaseReservation pid qty].

(** [new Date()] and [Date.now()]: the clock is read from the world; how
    time passes between two readings is left to the environment. *)
Definition Date_now : M Z := fun w => mkOutcome (Ok (clock w)) w [].

(** ** CartService *)

Definition getCartKey (uid : string) : string := "cart:" +:+ uid.

(** Time to live of a stored cart: 24 hours in milliseconds. *)
Definition CART_TTL : Z := 86400000.

(** [items.reduce((sum, item) => sum + item.quantity, 0)] *)
Definition sumQuantity (l : list CartItem) : Z :=
  reduce (fun sum item => sum + quantity item) l 0.

(** [items.reduce((sum, item) => sum + (item.price || 0) * item.quantity, 0)] *)
Definition sumPrice (l : list CartItem) : Q :=
  reduce (fun sum item => (sum + or_zero (price item) * inject_Z (quantity item))%Q)
         l 0%Q.

(** [(item) => item.productId === productId] *)
Definition hasProductId (pid : string) (item : CartItem) : bool :=
  String.eqb (productId item) pid.

(** The block "Recalculate totals" shared by the mutations: the cart with
    the items [l], both totals recomputed from them, stamped [now]. *)
Definition recalculate (cart : Cart) (l : list CartItem) (now : Z) : Cart :=
  mkCart (userId cart) l (sumQuantity l) (sumPrice l) now.

(** The empty cart synthesized for a user without a stored record. *)
Definition emptyCart (uid : string) (now : Z) : Cart := mkCart uid [] 0 0%Q now.

(** The line that [addToCart] leaves for a product already in the cart:
    the quantity grows by [qty], the three price fields are overwritten. *)
Definition readded (finalPrice : Q) (p : Product) (qty : Z) (item : CartItem)
  : CartItem :=
  mkCartItem (productId item) (productName item) finalPrice
             (prod_sellingPrice p) (or_zero_opt (prod_salePercentage p))
             (quantity item + qty) (addedAt item) (selected item).

(** The line that [addToCart] appends for a product not yet in the cart. *)
Definition newItem (pid : string) (finalPrice : Q) (p : Product) (qty now : Z)
  : CartItem :=
  mkCartItem pid (prod_productName p) finalPrice
             (prod_sellingPrice p) (or_zero_opt (prod_salePercentage p))
             qty now (Some true).

(** [cart.items[itemIndex].quantity = quantity] *)
Definition setQuantity (qty : Z) (item : CartItem) : CartItem :=
  mkCartItem (productId item) (productName item) (price item) (originalPrice item)
             (salePercentage item) qty (addedAt item) (selected item).

(** [item.selected = selected] *)
Definition setSelected (sel : bool) (item : CartItem) : CartItem :=
  mkCartItem (productId item) (productName item) (price item) (originalPrice item)
             (salePercentage item) (quantity item) (addedAt item) (Some sel).

(** [getCart].  The read is typed [get<Cart>].  A string under a cart key
    is not a cart: the callers would fail on its missing [items], which
    the model reports here, once, as a [TypeError].  The service itself
    stores strings under [test:] keys only, and those are no cart keys
    ([cart_keys_hold_carts_preserved] below). *)
Definition getCart (uid : string) : M Cart :=
  let cartKey := getCartKey uid in
  do cart <- cache_get cartKey;
  match cart with
  | None =>
      do now <- Date_now;
      ret (emptyCart uid now)
  | Some (ECart cart) => ret cart
  | Some (EText _) => throw TypeError
  end.

Definition addToCart (uid : string) (addToCartDto : AddToCartDto) : M Cart :=
  let pid := dto_productId addToCartDto in
  let qty := dto_quantity addToCartDto in
  (* connection probe *)
  do t <- Date_now;
  let testKey := "test:" +:+ pretty t in
  do_ cache_set testKey (EText "test") 10000;
  do testValue <- cache_get testKey;
  (* verify that the product exists *)
  do product <- findOne pid;
  match product with
  | None =>
      throw (NotFoundException ("Product with ID " +:+ pid +:+ " not found"))
  | Some product =>
      do cart <- getCart uid;
      let existingItemIndex := findIndex (hasProductId pid) (items cart) in
      (* reserve only the new quantity being added *)
      do success <- reserveStock pid qty;
      if negb success then throw (BadRequestException insufficient_stock_message)
      else
        let finalPrice :=
          calculateFinalPrice (prod_sellingPrice product) (prod_salePercentage product) in
        do addedNow <- Date_now;
        let items' :=
          match existingItemIndex with
          | Some i => alter (readded finalPrice product qty) i (items cart)
          | None => items cart ++ [newItem pid finalPrice product qty addedNow]
          end in
        do now <- Date_now;
        let cart' := recalculate cart items' now in
        do_ cache_set (getCartKey uid) (ECart cart') CART_TTL;
        ret cart'
  end.

Definition updateCartItem (uid pid : string) (updateCartItemDto : UpdateCartItemDto)
  : M Cart :=
  let qty := upd_quantity updateCartItemDto in
  if qty <=? 0 then throw (BadRequestException "Quantity must be greater than 0")
  else
    do cart <- getCart uid;
    match findIndex (hasProductId pid) (items cart) with
    | None =>
        throw (NotFoundException ("Product with ID " +:+ pid +:+ " not found in cart"))
    | Some itemIndex =>
        match items cart !! itemIndex with
        | None => throw TypeError
        | Some item =>
            let oldQuantity := quantity item in
            let quantityDiff := qty - oldQuantity in
            do_ (if 0 <? quantityDiff then
                   do success <- reserveStock pid quantityDiff;
                   if negb success then
                     throw (BadRequestException
                              ("Cannot increase quantity. Only " +:+ pretty oldQuantity
                               +:+ " available in stock."))
                   else ret tt
                 else if quantityDiff <? 0 then
                   releaseReservation pid (Z.abs quantityDiff)
                 else ret tt);
            let items' := alter (setQuantity qty) itemIndex (items cart) in
            do now <- Date_now;
            let cart' := recalculate cart items' now in
            do_ cache_set (getCartKey uid) (ECart cart') CART_TTL;
            ret cart'
        end
    end.

Definition removeFromCart (uid pid : string) : M Cart :=
  do cart <- getCart uid;
  match findIndex (hasProductId pid) (items cart) with
  | None =>
      throw (NotFoundException ("Product with ID " +:+ pid +:+ " not found in cart"))
  | Some itemIndex =>
      match items cart !! itemIndex with
      | None => throw TypeError
      | Some item =>
          (* release the reservation of the whole line *)
          do_ releaseReservation (productId item) (quantity item);
          (* [cart.items.splice(itemIndex, 1)] *)
          let items' := delete itemIndex (items cart) in
          do now <- Date_now;
          let cart' := recalculate cart items' now in
          let cartKey := getCartKey uid in
          do_ (match items' with
               | [] => cache_del cartKey
               | _ :: _ => cache_set cartKey (ECart cart') CART_TTL
               end);
          ret cart'
      end
  end.

(** [toggleSelectItem].  [find] returns the first matching item object of
    the array itself, so the assignment to [item.selected] changes the
    cart in place, at the index of that item. *)
Definition toggleSelectItem (uid pid : string) (sel : bool) : M Cart :=
  do cart <- getCart uid;
  match findIndex (hasProductId pid) (items cart) with
  | None => throw (NotFoundException "Product not found in cart")
  | Some i =>
      let items' := alter (setSelected sel) i (items cart) in
      do now <- Date_now;
      let cart' := mkCart (userId cart) items' (totalItems cart) (totalPrice cart) now in
      do_ cache_set (getCartKey uid) (ECart cart') CART_TTL;
      ret cart'
  end.

Definition toggleSelectAll (uid : string) (sel : bool) : M Cart :=
  do cart <- getCart uid;
  let items' := map (setSelected sel) (items cart) in
  do now <- Date_now;
  let cart' := mkCart (userId cart) items' (totalItems cart) (totalPrice cart) now in
  do_ cache_set (getCartKey uid) (ECart cart') CART_TTL;
  ret cart'.

(** [item.selected === true] *)
Definition isSelected (item : CartItem) : bool :=
  match selected item with
  | Some true => true
  | _ => false
  end.

(** [getSelectedItems]: a pure filter. *)
Definition getSelectedItems (cart : Cart) : list CartItem :=
  List.filter isSelected (items cart).

Definition removeSelectedItems (uid : string) : M Cart :=
  do cart <- getCart uid;
  (* keep the items that are not selected: [item.selected !== true] *)
  let items' := List.filter (fun item => negb (isSelected item)) (items cart) in
  do now <- Date_now;
  let cart' := recalculate cart items' now in
  let cartKey := getCartKey uid in
  do_ (match items' with
       | [] => cache_del cartKey
       | _ :: _ => cache_set cartKey (ECart cart') CART_TTL
       end);
  ret cart'.

(** The loop of [clearCart]: [for (const item of cart.items) await ...]. *)
Fixpoint releaseAll (l : list CartItem) : M unit :=
  match l with
  | [] => ret tt
  | item :: l' =>
      do_ releaseReservation (productId item) (quantity item);
      releaseAll l'
  end.

Definition clearCart (uid : string) : M unit :=
  do cart <- getCart uid;
  do_ (if (0 <? Z.of_nat (length (items cart))) then releaseAll (items cart)
       else ret tt);
  let cartKey := getCartKey uid in
  cache_del cartKey.

Definition getCartItemCount (uid : string) : M Z :=
  do cart <- getCart uid;
  ret (totalItems cart).

Definition removeItemsByProductIds (uid : string) (productIds : list string) : M Cart :=
  do cart <- getCart uid;
  match items cart with
  | [] => throw (NotFoundException "Cart is empty")
  | _ :: _ =>
      let items' :=
        List.filter (fun item => negb (includes productIds (productId item)))
                    (items cart) in
      let cartKey := getCartKey uid in
      match items' with
      | [] =>
          do_ cache_del cartKey;
          do now <- Date_now;
          ret (emptyCart uid now)
      | _ :: _ =>
          do now <- Date_now;
          let cart' := recalculate cart items' now in
          do_ cache_set cartKey (ECart cart') CART_TTL;
          ret cart'
      end
  end.

(** ** Sequences of mutations *)

Inductive Mutation :=
| AddToCart (uid : string) (dto : AddToCartDto)
| UpdateCartItem (uid pid : string) (dto : UpdateCartItemDto)
| RemoveFromCart (uid pid : string)
| ToggleSelectItem (uid pid : string) (sel : bool)
| ToggleSelectAll (uid : string) (sel : bool)
| RemoveSelectedItems (uid : string)
| RemoveItemsByProductIds (uid : string) (productIds : list string).

Definition perform (m : Mutation) : M Cart :=
  match m with
  | AddToCart uid dto => addToCart uid dto
  | UpdateCartItem uid pid dto => updateCartItem uid pid dto
  | RemoveFromCart uid pid => removeFromCart uid pid
  | ToggleSelectItem uid pid sel => toggleSelectItem uid pid sel
  | ToggleSelectAll uid sel => toggleSelectAll uid sel
  | RemoveSelectedItems uid => removeSelectedItems uid
  | RemoveItemsByProductIds uid productIds => removeItemsByProductIds uid productIds
  end.

(** Requests served one after the other; a request that throws leaves the
    world as it was when the exception was raised, and the next request
    starts from there. *)
Fixpoint serve (ms : list Mutation) (w : World) : list (Outcome Cart) :=
  match ms with
  | [] => []
  | m :: ms' => let o := perform m w in o :: serve ms' (final o)
  end.

(** ** Vocabulary of the properties *)

(** The sum of the quantities of a list of items. *)
Fixpoint total_quantity (l : list CartItem) : Z :=
  match l with
  | [] => 0
  | item :: l' => quantity item + total_quantity l'
  end.

(** The sum of price times quantity of a list of items. *)
Fixpoint total_amount (l : list CartItem) : Q :=
  match l with
  | [] => 0%Q
  | item :: l' => (price item * inject_Z (quantity item) + total_amount l')%Q
  end.

(** The derived totals of a cart agree with its items. *)
Definition totals_ok (c : Cart) : Prop :=
  totalItems c = total_quantity (items c) /\
  (totalPrice c == total_amount (items c))%Q.

(** Every cart held by the cache has consistent totals. *)
Definition carts_ok (m : gmap string entry) : Prop :=
  forall key c, m !! key = Some (ECart c) -> totals_ok c.

Definition store_ok (w : World) : Prop := carts_ok (cache w).

Definition is_inventory_call (e : event) : bool :=
  match e with
  | ReserveStock _ _ | ReleaseReservation _ _ => true
  | _ => false
  end.

Definition inventory_calls (l : list event) : list event :=
  List.filter is_inventory_call l.

(** The call that releases the whole line of an item. *)
Definition release_of (item : CartItem) : event :=
  ReleaseReservation (productId item) (quantity item).

(** What the claim about [clearCart] promises for the cart [c] stored for
    [uid]: one release per item, for its whole quantity, whatever the
    releases answer, and the record deleted afterwards. *)
Definition clearCart_releases_every_item (uid : string) (c : Cart) (w : World) : Prop :=
  inventory_calls (events (clearCart uid w)) = map release_of (items c) /\
  cache (final (clearCart uid w)) !! getCartKey uid = None.

(** The cart that [getCart] yields for [uid] in the world [w]. *)
Definition readCart (uid : string) (w : World) : Res Cart :=
  match cache w !! getCartKey uid with
  | None => Ok (emptyCart uid (clock w))
  | Some (ECart c) => Ok c
  | Some (EText _) => Throw TypeError
  end.

(** The lines of a cart for one product. *)
Definition lines (pid : string) (l : list CartItem) : list CartItem :=
  List.filter (hasProductId pid) l.

(** The key and the calls of the connection probe of [addToCart]. *)
Definition probeKey (w : World) : string := "test:" +:+ pretty (clock w).

Definition probe_calls (w : World) : list event :=
  [CacheSet (probeKey w) (EText "test") 10000; CacheGet (probeKey w)].


(** No string is held under the cart key of a user. *)
Definition typed_keys (m : gmap string entry) : Prop :=
  forall uid s, m !! getCartKey uid <> Some (EText s).

Definition cart_keys_hold_carts (w : World) : Prop := typed_keys (cache w).

(** No cart without items is held by the cache. *)
Definition carts_nonempty (m : gmap string entry) : Prop :=
  forall key c, m !! key = Some (ECart c) -> items c <> [].

Definition no_empty_record (w : World) : Prop := carts_nonempty (cache w).

(** The mutations that cannot store a cart without items: all of them,
    [toggleSelectAll] for a user without a stored record excepted. *)
Definition keeps_records_nonempty (m : Mutation) (w : World) : Prop :=
  match m with
  | ToggleSelectAll uid _ => cache w !! getCartKey uid <> None
  | _ => True
  end.

(** ** Vocabulary of the further properties *)

(** The user whose cart a mutation works on. *)
Definition user_of (m : Mutation) : string :=
  match m with
  | AddToCart uid _ => uid
  | UpdateCartItem uid _ _ => uid
  | RemoveFromCart uid _ => uid
  | ToggleSelectItem uid _ _ => uid
  | ToggleSelectAll uid _ => uid
  | RemoveSelectedItems uid => uid
  | RemoveItemsByProductIds uid _ => uid
  end.

(** The units of a product that a list of items holds. *)
Definition quantity_of (pid : string) (l : list CartItem) : Z :=
  total_quantity (lines pid l).

(** The units of a product asked from the inventory by a list of calls:
    the reserved ones count up, the released ones count down. *)
Fixpoint net_reserved (pid : string) (l : list event) : Z :=
  match l with
  | [] => 0
  | ReserveStock p q :: l' =>
      (if String.eqb p pid then q else 0) + net_reserved pid l'
  | ReleaseReservation p q :: l' =>
      (if String.eqb p pid then - q else 0) + net_reserved pid l'
  | _ :: l' => net_reserved pid l'
  end.

(** Every stored cart has at most one line per product. *)
Definition carts_unique (m : gmap string entry) : Prop :=
  forall key c, m !! key = Some (ECart c) -> NoDup (productId <$> items c).

Definition one_line_per_product (w : World) : Prop := carts_unique (cache w).

(** Every line of every stored cart holds at least one unit. *)
Definition carts_positive (m : gmap string entry) : Prop :=
  forall key c, m !! key = Some (ECart c) -> Forall (fun item => 0 < quantity item) (items c).

Definition quantities_positive (w : World) : Prop := carts_positive (cache w).

(** The quantity of an [addToCart] request passed the validation of its
    DTO (at least one unit); the other mutations carry no such promise. *)
Definition validated (m : Mutation) : Prop :=
  match m with
  | AddToCart _ dto => 0 < dto_quantity dto
  | _ => True
  end.

(** A call that throws leaves every stored cart as it was. *)
Definition fails_clean (w : World) (o : Outcome Cart) : Prop :=
  forall e, result o = Throw e ->
  forall u, cache (final o) !! getCartKey u = cache w !! getCartKey u.

(** A call for the user [uid] leaves the carts of the other users alone. *)
Definition others_untouched (uid : string) (w : World) (o : Outcome Cart) : Prop :=
  forall u, u <> uid -> cache (final o) !! getCartKey u = cache w !! getCartKey u.

(** The writes of a call for the user [uid]: a cart under the key of that
    user, for 24 hours, or the string 'test' under the probe key, for ten
    seconds; the only key it deletes is the key of that user. *)
Definition writes_own_key (uid : string) (w : World) (o : Outcome Cart) : Prop :=
  (forall key v ttl, CacheSet key v ttl ∈ events o ->
     (key = getCartKey uid /\ ttl = 86400000 /\ exists c, v = ECart c) \/
     (key = probeKey w /\ ttl = 10000 /\ v = EText "test")) /\
  (forall key, CacheDel key ∈ events o -> key = getCartKey uid).

(** The items and the totals of two carts agree. *)
Definition same_content (c1 c2 : Cart) : Prop :=
  items c1 = items c2 /\ totalItems c1 = totalItems c2 /\ totalPrice c1 = totalPrice c2.

(** The cart that a call returned is the cart that the user reads next. *)
Definition reads_back (uid : string) (o : Outcome Cart) : Prop :=
  forall c', result o = Ok c' ->
  exists c'', readCart uid (final o) = Ok c'' /\ same_content c'' c'.

End Service.

Arguments mkOutcome {Inv A}.
Arguments result {Inv A}.
Arguments final {Inv A}.
Arguments events {Inv A}.
Arguments ret {Inv A}.
Arguments throw {Inv A}.
Arguments bind {Inv A B}.

(** ** A concrete inventory *)

(** The counters that the inventory keeps for a product. *)
Record Stock := mkStock {
  available : Z;
  reserved : Z
}.

(** Modelled from the spec: the inventory service (inventory.service.ts is
    not among the sources).  It holds an available and a reserved counter
    per product; [reserve] succeeds when enough units are available and
    moves them to the reserved counter, [release] moves them back.  The
    spec assumes that a release succeeds and leaves open what a failing
    one looks like; here a product without an inventory record cannot be
    reserved, and releasing it throws. *)
Definition stock_reserve (pid : string) (qty : Z) (s : gmap string Stock)
  : bool * gmap string Stock :=
  match s !! pid with
  | Some st =>
      if qty <=? available st
      then (true, <[pid := mkStock (available st - qty) (reserved st + qty)]> s)
      else (false, s)
  | None => (false, s)
  end.

Definition stock_release (pid : string) (qty : Z) (s : gmap string Stock)
  : option Exn * gmap string Stock :=
  match s !! pid with
  | Some st => (None, <[pid := mkStock (available st + qty) (reserved st - qty)]> s)
  | None => (Some (NotFoundException ("Inventory for product " +:+ pid +:+ " not found")), s)
  end.

Definition StockInventory : InventoryService :=
  {| inv_state := gmap string Stock;
     inv_reserveStock := stock_reserve;
     inv_releaseReservation := stock_release |}.

(** The units of a product that can still be reserved. *)
Definition available_units (pid : string) (s : gmap string Stock) : Z :=
  match s !! pid with
  | Some st => available st
  | None => 0
  end.

(** ** Sample data *)

Definition P1 : Product := mkProduct "Cleanser" 1000 (Some 10%Q).

Definition sample_catalog (pid : string) : option Product :=
  if String.eqb pid "P1" then Some P1 else None.

Definition sample_item (pid : string) (qty : Z) (sel : option bool) : CartItem :=
  mkCartItem pid "Cleanser" 900 1000 10 qty 0 sel.

Definition sample_cart (l : list CartItem) : Cart :=
  mkCart "u1" l (total_quantity l) (total_amount l) 0.

Definition sample_world (carts : gmap string entry) (stock : gmap string Stock)
  : @World StockInventory :=
  mkWorld (Inv := StockInventory) carts sample_catalog stock 1700000000000.

(** Ten units of P1 in stock, nobody has a cart. *)
Definition world_no_cart : @World StockInventory :=
  sample_world ∅ {["P1" := mkStock 10 0]}.

(** User u1 holds five units of P1; one more unit is available. *)
Definition cart_five : Cart := sample_cart [sample_item "P1" 5 (Some true)].

Definition world_one_left : @World StockInventory :=
  sample_world {["cart:u1" := ECart cart_five]} {["P1" := mkStock 1 5]}.

(** User u1 holds three units of A and three of B, one line selected, one
    without a flag. *)
Definition cart_two : Cart :=
  sample_cart [sample_item "A" 3 (Some true); sample_item "B" 3 None].

Definition world_two_lines : @World StockInventory :=
  sample_world {["cart:u1" := ECart cart_two]}
               {["A" := mkStock 0 3; "B" := mkStock 0 3]}.

(** The same cart, but the inventory has no record of A any more: its
    release throws. *)
Definition world_release_fails : @World StockInventory :=
  sample_world {["cart:u1" := ECart cart_two]} {["B" := mkStock 0 3]}.


(** User u1 holds two units of P1 and one unit of P2, both selected. *)
Definition cart_mixed : Cart :=
  sample_cart [sample_item "P1" 2 (Some true); sample_item "P2" 1 (Some true)].

Definition world_mixed : @World StockInventory :=
  sample_world {["cart:u1" := ECart cart_mixed]}
               {["P1" := mkStock 8 2; "P2" := mkStock 4 1]}.

(** User u1 holds one unit of P2; ten units of P1 are available. *)
Definition cart_p2 : Cart := sample_cart [sample_item "P2" 1 (Some true)].

Definition world_p2 : @World StockInventory :=
  sample_world {["cart:u1" := ECart cart_p2]}
               {["P1" := mkStock 10 0; "P2" := mkStock 4 1]}.

(** * Properties *)

(** ** JavaScript primitives *)


(** [Math.round] returns the integer nearest to its argument. *)
Lemma Math_round_nearest (x : Q) :
  (x - (1 # 2) < Math_round x)%Q /\ (Math_round x <= x + (1 # 2))%Q.
Proof.
  unfold Math_round. split.
  - pose proof (Qlt_floor (x + (1 # 2))) as H.
    rewrite inject_Z_plus in H. simpl inject_Z in H.
    apply Qplus_lt_l with (z := 1%Q).
    eapply Qle_lt_trans; [|exact H].
    ring_simplify. apply Qle_refl.
  - apply Qfloor_le.
Qed.

(** A rounded result has the sign it was given, unless it is no number. *)
Lemma binary_round_aux_sign (sx : bool) (m e : Z) (l : SpecFloat.location) :
  let r := SpecFloat.binary_round_aux binary64_prec binary64_emax sx m e l in
  r = SpecFloat.S754_zero sx \/ r = SpecFloat.S754_nan \/
  r = SpecFloat.S754_infinity sx \/ exists m' e', r = SpecFloat.S754_finite sx m' e'.
Proof.
  unfold SpecFloat.binary_round_aux.
  destruct (SpecFloat.shr_fexp binary64_prec binary64_emax m e l) as [mrs' e'].
  destruct (SpecFloat.shr_fexp binary64_prec binary64_emax _ e' SpecFloat.loc_Exact)
    as [mrs'' e''].
  destruct (SpecFloat.shr_m mrs'') as [|p|p].
  - left. reflexivity.
  - destruct (Z.leb e'' (Z.sub binary64_emax binary64_prec)).
    + right. right. right. eauto.
    + right. right. left. reflexivity.
  - right. left. reflexivity.
Qed.

(** The number of a rational that is zero or negative fails the test of
    [calculateFinalPrice]. *)
Lemma number_of_Q_nonpositive (q : Q) :
  (q <= 0)%Q ->
  falsy (number_of_Q q) || number_leb (number_of_Q q) number_zero = true.
Proof.
  intros Hq. unfold number_of_Q.
  destruct (Qnum q) as [|n|n] eqn:Hn.
  - reflexivity.
  - exfalso. unfold Qle in Hq. rewrite Hn in Hq. simpl in Hq. lia.
  - unfold SpecFloat.SFdiv.
    destruct (SpecFloat.SFdiv_core_binary binary64_prec binary64_emax
                (Z.pos n) 0 (Z.pos (Qden q)) 0) as [[mz ez] lz].
    destruct (binary_round_aux_sign (xorb true false) mz ez lz)
      as [H|[H|[H|(m' & e' & H)]]]; rewrite H; reflexivity.
Qed.

(** A number above zero passes it. *)
Lemma positive_number (p : number) :
  number_ltb number_zero p = true ->
  falsy p || number_leb p number_zero = false.
Proof.
  destruct p as [s|s| |s m e]; try destruct s; cbv; intros H;
    first [discriminate H | reflexivity].
Qed.

(** For a sale percentage above zero the price is [Math.round] of the
    double that the three operations give. *)
Lemma calculateFinalPrice_on_sale (sp pct v : Q) :
  number_ltb number_zero (number_of_Q pct) = true ->
  number_value
    (number_sub (number_of_Q sp)
                (number_div (number_mul (number_of_Q sp) (number_of_Q pct))
                            (number_of_Q 100))) = Some v ->
  calculateFinalPrice sp (Some pct) = Math_round v.
Proof.
  intros Hpos Hv. unfold calculateFinalPrice. cbv zeta.
  rewrite (positive_number _ Hpos), Hv. reflexivity.
Qed.

Lemma findIndex_Some {A} (p : A -> bool) (l : list A) (i : nat) :
  findIndex p l = Some i ->
  exists x, l !! i = Some x /\ p x = true /\
            forall j y, (j < i)%nat -> l !! j = Some y -> p y = false.
Proof.
  revert i. induction l as [|a l IH]; intros i; simpl; [discriminate|].
  destruct (p a) eqn:Ha.
  - intros [= <-]. exists a. repeat split; auto. intros j y Hj. lia.
  - destruct (findIndex p l) as [k|] eqn:Hk; simpl; [|discriminate].
    intros [= <-]. destruct (IH k eq_refl) as (x & Hx & Hpx & Hlt).
    exists x. repeat split; auto.
    intros [|j] y Hj; simpl.
    + intros [= <-]. exact Ha.
    + apply Hlt. lia.
Qed.

(** ** Totals *)









(** Changing the first line of a product, without changing its product,
    changes the first of the lines of that product. *)
Lemma lines_alter_first (pid : string) (f : CartItem -> CartItem)
      (l : list CartItem) (i : nat) :
  (forall item, productId (f item) = productId item) ->
  findIndex (hasProductId pid) l = Some i ->
  lines pid (alter f i l) = alter f O (lines pid l).
Proof.
  intros Hf. unfold lines. revert i.
  induction l as [|a l IH]; intros i; simpl; [discriminate|].
  destruct (hasProductId pid a) eqn:Ha.
  - intros [= <-]. simpl. unfold hasProductId in *. rewrite Hf, Ha. reflexivity.
  - destruct (findIndex (hasProductId pid) l) as [k|] eqn:Hk; simpl; [|discriminate].
    intros [= <-]. simpl. rewrite Ha. apply IH. reflexivity.
Qed.

Lemma lines_absent (pid : string) (l : list CartItem) :
  findIndex (hasProductId pid) l = None -> lines pid l = [].
Proof.
  unfold lines. induction l as [|a l IH]; simpl; [reflexivity|].
  destruct (hasProductId pid a); [discriminate|].
  destruct (findIndex (hasProductId pid) l); [discriminate|]. auto.
Qed.

Lemma lines_app (pid : string) (l1 l2 : list CartItem) :
  lines pid (l1 ++ l2) = lines pid l1 ++ lines pid l2.
Proof. unfold lines. apply List.filter_app. Qed.

(** ** Selection *)

Lemma isSelected_false (item : CartItem) :
  isSelected item = false <-> selected item <> Some true.
Proof.
  unfold isSelected. destruct (selected item) as [[]|]; split; congruence.
Qed.

Lemma isSelected_true (item : CartItem) :
  isSelected item = true <-> selected item = Some true.
Proof.
  unfold isSelected. destruct (selected item) as [[]|]; split; congruence.
Qed.

(** A filter and the filter of the opposite test split a list. *)
Lemma filter_split {A} (p : A -> bool) (l : list A) :
  l ≡ₚ List.filter p l ++ List.filter (fun x => negb (p x)) l.
Proof.
  induction l as [|a l IH]; simpl; [reflexivity|].
  destruct (p a); simpl.
  - constructor. exact IH.
  - rewrite <- Permutation_middle. constructor. exact IH.
Qed.

Section Properties.
Context `{Inv : InventoryService}.


Lemma emptyCart_totals_ok (uid : string) (now : Z) : totals_ok (emptyCart uid now).
Proof. split; simpl; reflexivity. Qed.

(** ** Keys *)

Lemma test_key_not_cart_key (t u : string) : "test:" +:+ t <> getCartKey u.
Proof. unfold getCartKey. simpl. discriminate. Qed.

(** ** Running the methods *)

Lemma getCart_run (uid : string) (w : World) :
  getCart uid w = mkOutcome (readCart uid w) w [CacheGet (getCartKey uid)].
Proof.
  unfold getCart, readCart, bind, cache_get, Date_now, ret, throw.
  destruct (cache w !! getCartKey uid) as [[c|s]|]; reflexivity.
Qed.

Lemma readCart_probe (uid : string) (w : World) (t : string) (v : entry) :
  readCart uid (set_cache w (<["test:" +:+ t := v]> (cache w))) = readCart uid w.
Proof.
  unfold readCart. simpl cache.
  rewrite lookup_insert_ne by apply test_key_not_cart_key. reflexivity.
Qed.

(** ** Stored carts stay consistent *)




Lemma carts_ok_empty : carts_ok ∅.
Proof. intros k c Hk. rewrite lookup_empty in Hk. discriminate. Qed.

Lemma readCart_totals_ok (uid : string) (w : World) (c : Cart) :
  store_ok w -> readCart uid w = Ok c -> totals_ok c.
Proof.
  unfold readCart. intros H.
  destruct (cache w !! getCartKey uid) as [[c'|s]|] eqn:E; intros [= <-].
  - exact (H _ _ E).
  - apply emptyCart_totals_ok.
Qed.



Local Arguments getCart : simpl never.

Ltac unfold_prims :=
  unfold bind, cache_get, cache_set, cache_del, findOne, reserveStock,
         releaseReservation, Date_now, ret, throw.












(** ** addToCart, case by case *)

Lemma addToCart_unknown_product (uid : string) (dto : AddToCartDto) (w : World) :
  catalog w (dto_productId dto) = None ->
  addToCart uid dto w =
  mkOutcome
    (Throw (NotFoundException ("Product with ID " +:+ dto_productId dto +:+ " not found")))
    (set_cache w (<[probeKey w := EText "test"]> (cache w)))
    (probe_calls w ++ [FindOne (dto_productId dto)]).
Proof.
  intros Hp. unfold addToCart. unfold_prims. cbn. rewrite Hp. reflexivity.
Qed.

Lemma addToCart_refused (uid : string) (dto : AddToCartDto) (w : World)
      (p : Product) (c : Cart) (i : inv_state) :
  catalog w (dto_productId dto) = Some p ->
  readCart uid w = Ok c ->
  inv_reserveStock (dto_productId dto) (dto_quantity dto) (inventory w) = (false, i) ->
  addToCart uid dto w =
  mkOutcome
    (Throw (BadRequestException insufficient_stock_message))
    (mkWorld (<[probeKey w := EText "test"]> (cache w)) (catalog w) i (clock w))
    (probe_calls w ++
     [FindOne (dto_productId dto); CacheGet (getCartKey uid);
      ReserveStock (dto_productId dto) (dto_quantity dto)]).
Proof.
  intros Hp Hc Hr. unfold addToCart. unfold_prims. cbn. rewrite Hp. cbn.
  rewrite getCart_run, readCart_probe, Hc. cbn. rewrite Hr. reflexivity.
Qed.

Lemma addToCart_reserved (uid : string) (dto : AddToCartDto) (w : World)
      (p : Product) (c : Cart) (i : inv_state) :
  catalog w (dto_productId dto) = Some p ->
  readCart uid w = Ok c ->
  inv_reserveStock (dto_productId dto) (dto_quantity dto) (inventory w) = (true, i) ->
  let pid := dto_productId dto in
  let qty := dto_quantity dto in
  let finalPrice := calculateFinalPrice (prod_sellingPrice p) (prod_salePercentage p) in
  let items' :=
    match findIndex (hasProductId pid) (items c) with
    | Some k => alter (readded finalPrice p qty) k (items c)
    | None => items c ++ [newItem pid finalPrice p qty (clock w)]
    end in
  let cart' := recalculate c items' (clock w) in
  addToCart uid dto w =
  mkOutcome
    (Ok cart')
    (mkWorld (<[getCartKey uid := ECart cart']> (<[probeKey w := EText "test"]> (cache w)))
             (catalog w) i (clock w))
    (probe_calls w ++
     [FindOne pid; CacheGet (getCartKey uid); ReserveStock pid qty;
      CacheSet (getCartKey uid) (ECart cart') CART_TTL]).
Proof.
  intros Hp Hc Hr. unfold addToCart. unfold_prims. cbn. rewrite Hp. cbn.
  rewrite getCart_run, readCart_probe, Hc. cbn. rewrite Hr. reflexivity.
Qed.

(** C6.  The effective price is [round(sellingPrice - sellingPrice *
    salePercentage / 100)] for a positive sale percentage: the whole number
    nearest to the number that the three operations give, a half going
    up; and it is the selling price itself for a zero, negative or null
    percentage.  For a selling price of 1000 and 10 percent it is 900, and
    adding two units of that product to an empty cart gives one line
    priced 900, [totalPrice] 1800 and [totalItems] 2.  The operations are
    those of JavaScript numbers: 125 at 64.4 percent gives the double
    44.499999999999986 and the price 44; a half goes up for positive and
    for negative values (0.5 to 1, -1.5 to -1). *)
Theorem calculateFinalPrice_discount :
  (forall sp pct v : Q,
     number_ltb number_zero (number_of_Q pct) = true ->
     number_value
       (number_sub (number_of_Q sp)
          (number_div (number_mul (number_of_Q sp) (number_of_Q pct))
                      (number_of_Q 100))) = Some v ->
     exists r : Z,
       calculateFinalPrice sp (Some pct) = inject_Z r /\
       (v - (1 # 2) < inject_Z r)%Q /\ (inject_Z r <= v + (1 # 2))%Q) /\
  (forall sp pct : Q, (pct <= 0)%Q -> calculateFinalPrice sp (Some pct) = sp) /\
  (forall sp : Q, calculateFinalPrice sp None = sp) /\
  calculateFinalPrice 1000 (Some 10%Q) = 900%Q /\
  calculateFinalPrice 125 (Some (644 # 10)) = 44%Q /\
  calculateFinalPrice 999 (Some 15%Q) = 849%Q /\
  calculateFinalPrice 1 (Some 50%Q) = 1%Q /\
  calculateFinalPrice 3 (Some 150%Q) = (-1)%Q /\
  (forall (uid name : string) (w : World) (i : inv_state),
     cache w !! getCartKey uid = None ->
     catalog w "P1" = Some (mkProduct name 1000 (Some 10%Q)) ->
     inv_reserveStock "P1" 2 (inventory w) = (true, i) ->
     exists c, result (addToCart uid (mkAddToCartDto "P1" 2) w) = Ok c /\
               map price (items c) = [900%Q] /\
               map quantity (items c) = [2] /\
               totalPrice c = 1800%Q /\ totalItems c = 2).
Proof.
  split; [|split; [|split; [|split; [|split; [|split; [|split; [|split]]]]]]].
  - intros sp pct v Hpos Hv.
    rewrite (calculateFinalPrice_on_sale sp pct v Hpos Hv).
    exists (Qfloor (v + (1 # 2))). split; [reflexivity|].
    exact (Math_round_nearest v).
  - intros sp pct Hle. unfold calculateFinalPrice. cbv zeta.
    rewrite (number_of_Q_nonpositive pct Hle). reflexivity.
  - reflexivity.
  - vm_compute. reflexivity.
  - vm_compute. reflexivity.
  - vm_compute. reflexivity.
  - vm_compute. reflexivity.
  - vm_compute. reflexivity.
  - intros uid name w i Hc Hp Hr.
    assert (Hread : readCart uid w = Ok (emptyCart uid (clock w))).
    { unfold readCart. rewrite Hc. reflexivity. }
    rewrite (addToCart_reserved uid (mkAddToCartDto "P1" 2) w _ _ i Hp Hread Hr).
    eexists. split; [reflexivity|].
    repeat split; vm_compute; reflexivity.
Qed.

(** C2.  [addToCart] asks the inventory for exactly the quantity being
    added, whatever the cart already holds; when the reservation is
    refused it throws the "not enough stock" error and no cart record is
    written, deleted or changed. *)
Theorem addToCart_reserves_only_the_increment
        (uid : string) (dto : AddToCartDto) (w : World) (p : Product) (c : Cart) :
  catalog w (dto_productId dto) = Some p ->
  readCart uid w = Ok c ->
  inventory_calls (events (addToCart uid dto w))
  = [ReserveStock (dto_productId dto) (dto_quantity dto)] /\
  ((inv_reserveStock (dto_productId dto) (dto_quantity dto) (inventory w)).1 = false ->
   result (addToCart uid dto w) = Throw (BadRequestException insufficient_stock_message) /\
   (forall u, cache (final (addToCart uid dto w)) !! getCartKey u = cache w !! getCartKey u) /\
   (forall u v ttl, CacheSet (getCartKey u) v ttl ∉ events (addToCart uid dto w)) /\
   (forall u, CacheDel (getCartKey u) ∉ events (addToCart uid dto w))).
Proof.
  intros Hp Hc.
  destruct (inv_reserveStock (dto_productId dto) (dto_quantity dto) (inventory w))
    as [[] i] eqn:Hr.
  - rewrite (addToCart_reserved uid dto w p c i Hp Hc Hr). cbn.
    split; [reflexivity|]. discriminate.
  - rewrite (addToCart_refused uid dto w p c i Hp Hc Hr). cbn.
    split; [reflexivity|]. intros _. split; [reflexivity|]. repeat split.
    + intros u. apply lookup_insert_ne, test_key_not_cart_key.
    + intros u v ttl Hin.
      apply elem_of_cons in Hin as [Heq|Hin].
      { discriminate Heq. }
      repeat (apply elem_of_cons in Hin as [Heq|Hin]; [discriminate|]).
      inversion Hin.
    + intros u Hin.
      repeat (apply elem_of_cons in Hin as [Heq|Hin]; [discriminate|]).
      inversion Hin.
Qed.

(** C7.  When the reservation succeeds: for a product already in the cart
    the first line of that product gets the old quantity plus the added
    one and the three price fields freshly computed from the catalogue, so
    a cart with a single line for the product keeps a single line; for a
    product not in the cart a new line with [selected = true] is appended. *)
Theorem addToCart_merges_or_appends
        (uid : string) (dto : AddToCartDto) (w : World) (p : Product) (c : Cart)
        (i : inv_state) :
  catalog w (dto_productId dto) = Some p ->
  readCart uid w = Ok c ->
  inv_reserveStock (dto_productId dto) (dto_quantity dto) (inventory w) = (true, i) ->
  let pid := dto_productId dto in
  let qty := dto_quantity dto in
  let fresh item :=
    mkCartItem (productId item) (productName item)
               (calculateFinalPrice (prod_sellingPrice p) (prod_salePercentage p))
               (prod_sellingPrice p) (or_zero_opt (prod_salePercentage p))
               (quantity item + qty) (addedAt item) (selected item) in
  exists c',
    result (addToCart uid dto w) = Ok c' /\
    cache (final (addToCart uid dto w)) !! getCartKey uid = Some (ECart c') /\
    (forall k, findIndex (hasProductId pid) (items c) = Some k ->
       items c' = alter fresh k (items c) /\
       length (items c') = length (items c) /\
       forall item, lines pid (items c) = [item] -> lines pid (items c') = [fresh item]) /\
    (findIndex (hasProductId pid) (items c) = None ->
       items c' = items c ++
                  [mkCartItem pid (prod_productName p)
                     (calculateFinalPrice (prod_sellingPrice p) (prod_salePercentage p))
                     (prod_sellingPrice p) (or_zero_opt (prod_salePercentage p))
                     qty (clock w) (Some true)] /\
       exists item, lines pid (items c') = [item] /\ selected item = Some true /\
                    quantity item = qty).
Proof.
  intros Hp Hc Hr pid qty fresh.
  rewrite (addToCart_reserved uid dto w p c i Hp Hc Hr). cbn [result final cache].
  eexists. split; [reflexivity|]. split; [apply lookup_insert_eq|].
  fold pid qty. cbn [items recalculate].
  split.
  - intros k Hk. rewrite Hk. split; [reflexivity|].
    split; [apply length_alter|].
    intros item Hone.
    change (readded _ p qty) with fresh.
    rewrite (lines_alter_first pid fresh (items c) k); [|reflexivity|exact Hk].
    rewrite Hone. reflexivity.
  - intros Hk. rewrite Hk. split; [reflexivity|].
    rewrite lines_app, (lines_absent pid (items c) Hk). simpl.
    unfold lines, hasProductId. simpl. rewrite String.eqb_refl.
    eexists. split; [reflexivity|]. split; reflexivity.
Qed.

(** ** removeSelectedItems *)

Lemma removeSelectedItems_run (uid : string) (w : World) (c : Cart) :
  readCart uid w = Ok c ->
  let kept := List.filter (fun item => negb (isSelected item)) (items c) in
  let cart' := recalculate c kept (clock w) in
  removeSelectedItems uid w =
  match kept with
  | [] => mkOutcome (Ok cart') (set_cache w (delete (getCartKey uid) (cache w)))
                    [CacheGet (getCartKey uid); CacheDel (getCartKey uid)]
  | _ :: _ => mkOutcome (Ok cart')
                        (set_cache w (<[getCartKey uid := ECart cart']> (cache w)))
                        [CacheGet (getCartKey uid);
                         CacheSet (getCartKey uid) (ECart cart') CART_TTL]
  end.
Proof.
  intros Hc. unfold removeSelectedItems. unfold_prims. rewrite getCart_run, Hc. cbn.
  destruct (List.filter _ _); reflexivity.
Qed.

Lemma kept_items_of_removeSelectedItems (uid : string) (w : World) (c : Cart) :
  readCart uid w = Ok c ->
  exists c',
    result (removeSelectedItems uid w) = Ok c' /\
    items c' = List.filter (fun item => negb (isSelected item)) (items c) /\
    (forall item, item ∈ items c' <-> item ∈ items c /\ selected item <> Some true).
Proof.
  intros Hc. pose proof (removeSelectedItems_run uid w c Hc) as Hrun.
  cbv zeta in Hrun.
  exists (recalculate c (List.filter (fun item => negb (isSelected item)) (items c))
                      (clock w)).
  assert (Hmem : forall item,
             item ∈ List.filter (fun item => negb (isSelected item)) (items c)
             <-> item ∈ items c /\ selected item <> Some true).
  { intros item. rewrite !list_elem_of_In, List.filter_In, negb_true_iff,
      isSelected_false. reflexivity. }
  destruct (List.filter (fun item => negb (isSelected item)) (items c)) eqn:Hk;
    rewrite Hrun; cbn [result items recalculate];
    (split; [reflexivity|]); (split; [reflexivity|exact Hmem]).
Qed.


(** C9.  [getSelectedItems] returns the items of the cart whose flag is
    [true], [removeSelectedItems] keeps the items whose flag is not
    [true], both in the order of the cart; the two lists split the cart:
    each item of the cart is in one of the two lists and not in the other,
    and an item without a flag is kept by [removeSelectedItems] and not
    returned by [getSelectedItems]. *)
Theorem selected_and_kept_partition (uid : string) (w : World) (c : Cart) :
  readCart uid w = Ok c ->
  exists c',
    result (removeSelectedItems uid w) = Ok c' /\
    getSelectedItems c
    = List.filter (fun item => bool_decide (selected item = Some true)) (items c) /\
    items c'
    = List.filter (fun item => bool_decide (selected item <> Some true)) (items c) /\
    (forall item, item ∈ getSelectedItems c
                  <-> item ∈ items c /\ selected item = Some true) /\
    (forall item, item ∈ items c'
                  <-> item ∈ items c /\ selected item <> Some true) /\
    items c ≡ₚ getSelectedItems c ++ items c' /\
    (forall item, item ∈ items c ->
       ((item ∈ getSelectedItems c) /\ (item ∉ items c')) \/
       ((item ∉ getSelectedItems c) /\ (item ∈ items c'))) /\
    (forall item, item ∈ items c -> selected item = None ->
       (item ∉ getSelectedItems c) /\ (item ∈ items c')).
Proof.
  intros Hc.
  destruct (kept_items_of_removeSelectedItems uid w c Hc) as (c' & Hres & Hitems & Hmem).
  exists c'. split; [exact Hres|].
  assert (Hsel : forall item, item ∈ getSelectedItems c
                              <-> item ∈ items c /\ selected item = Some true).
  { intros item. unfold getSelectedItems.
    rewrite !list_elem_of_In, List.filter_In, isSelected_true. reflexivity. }
  split; [|split; [|split; [exact Hsel|split; [exact Hmem|split; [|split]]]]].
  - unfold getSelectedItems. apply List.filter_ext. intros item.
    unfold isSelected. destruct (selected item) as [[]|]; reflexivity.
  - rewrite Hitems. apply List.filter_ext. intros item.
    unfold isSelected. destruct (selected item) as [[]|]; reflexivity.
  - rewrite Hitems. apply filter_split.
  - intros item Hin. destruct (isSelected item) eqn:Hs.
    + left. apply isSelected_true in Hs. split.
      * apply Hsel. auto.
      * intros Hk. apply Hmem in Hk as [_ Hk]. exact (Hk Hs).
    + right. apply isSelected_false in Hs. split.
      * intros Hk. apply Hsel in Hk as [_ Hk]. exact (Hs Hk).
      * apply Hmem. auto.
  - intros item Hin Hnone. split.
    + intros Hk. apply Hsel in Hk as [_ Hk]. congruence.
    + apply Hmem. split; [exact Hin|congruence].
Qed.

(** C10.  [updateCartItem] checks the quantity first: for a quantity of
    zero or less it throws "Quantity must be greater than 0" whatever the
    store holds, without any call to the cache, the catalogue or the
    inventory, and leaves the world as it was. *)
Theorem updateCartItem_rejects_nonpositive_first
        (uid pid : string) (dto : UpdateCartItemDto) (w : World) :
  upd_quantity dto <= 0 ->
  updateCartItem uid pid dto w =
  mkOutcome (Throw (BadRequestException "Quantity must be greater than 0")) w [].
Proof.
  intros Hq. unfold updateCartItem.
  destruct (upd_quantity dto <=? 0) eqn:E; [reflexivity|].
  apply Z.leb_gt in E. lia.
Qed.

(** ** updateCartItem, the refused increase *)

Lemma updateCartItem_refused (uid pid : string) (dto : UpdateCartItemDto) (w : World)
      (c : Cart) (k : nat) (item : CartItem) (i : inv_state) :
  readCart uid w = Ok c ->
  findIndex (hasProductId pid) (items c) = Some k ->
  items c !! k = Some item ->
  0 < upd_quantity dto ->
  quantity item < upd_quantity dto ->
  inv_reserveStock pid (upd_quantity dto - quantity item) (inventory w) = (false, i) ->
  updateCartItem uid pid dto w =
  mkOutcome
    (Throw (BadRequestException
              ("Cannot increase quantity. Only " +:+ pretty (quantity item)
               +:+ " available in stock.")))
    (set_inventory w i)
    [CacheGet (getCartKey uid); ReserveStock pid (upd_quantity dto - quantity item)].
Proof.
  intros Hc Hk Hitem Hpos Hlt Hr. unfold updateCartItem.
  destruct (upd_quantity dto <=? 0) eqn:E; [apply Z.leb_le in E; lia|].
  unfold_prims. rewrite getCart_run, Hc. cbn. rewrite Hk, Hitem. cbn.
  destruct (0 <? upd_quantity dto - quantity item) eqn:E'; [|apply Z.ltb_ge in E'; lia].
  rewrite Hr. reflexivity.
Qed.

(** ** clearCart *)

Lemma releaseAll_cons (a : CartItem) (l : list CartItem) (w : World) :
  releaseAll (a :: l) w =
  match inv_releaseReservation (productId a) (quantity a) (inventory w) with
  | (Some e, i) => mkOutcome (Throw e) (set_inventory w i) [release_of a]
  | (None, i) =>
      match releaseAll l (set_inventory w i) with
      | mkOutcome r w' ev => mkOutcome r w' (release_of a :: ev)
      end
  end.
Proof.
  simpl. unfold bind, releaseReservation.
  destruct (inv_releaseReservation _ _ _) as [[e|] i]; reflexivity.
Qed.

Lemma releaseAll_cache (l : list CartItem) (w : World) :
  cache (final (releaseAll l w)) = cache w.
Proof.
  revert w. induction l as [|a l IH]; intros w; [reflexivity|].
  rewrite releaseAll_cons.
  destruct (inv_releaseReservation _ _ _) as [[e|] i]; [reflexivity|].
  specialize (IH (set_inventory w i)).
  destruct (releaseAll l (set_inventory w i)) as [r w' ev]. exact IH.
Qed.

Lemma releaseAll_ok_events (l : list CartItem) (w : World) :
  result (releaseAll l w) = Ok tt -> events (releaseAll l w) = map release_of l.
Proof.
  revert w. induction l as [|a l IH]; intros w; [reflexivity|].
  rewrite releaseAll_cons.
  destruct (inv_releaseReservation _ _ _) as [[e|] i]; [discriminate|].
  specialize (IH (set_inventory w i)).
  destruct (releaseAll l (set_inventory w i)) as [r w' ev].
  simpl in *. intros Hr. rewrite (IH Hr). reflexivity.
Qed.

Lemma releaseAll_aborts (l1 l2 : list CartItem) (item : CartItem) (w : World)
      (e : Exn) (i : inv_state) :
  result (releaseAll l1 w) = Ok tt ->
  inv_releaseReservation (productId item) (quantity item)
                         (inventory (final (releaseAll l1 w))) = (Some e, i) ->
  releaseAll (l1 ++ item :: l2) w =
  mkOutcome (Throw e) (set_inventory (final (releaseAll l1 w)) i)
            (map release_of (l1 ++ [item])).
Proof.
  revert w. induction l1 as [|a l1 IH]; intros w.
  - intros _ Hrel. simpl app. rewrite releaseAll_cons.
    simpl in Hrel. rewrite Hrel. reflexivity.
  - simpl app. rewrite !releaseAll_cons.
    destruct (inv_releaseReservation (productId a) _ _) as [[e'|] i']; [discriminate|].
    specialize (IH (set_inventory w i')).
    destruct (releaseAll l1 (set_inventory w i')) as [r w' ev] eqn:Hrun.
    simpl in *. intros Hr Hrel. rewrite (IH Hr Hrel). reflexivity.
Qed.

Lemma clearCart_run (uid : string) (w : World) (c : Cart) :
  readCart uid w = Ok c ->
  clearCart uid w =
  match releaseAll (items c) w with
  | mkOutcome (Ok _) w1 ev =>
      mkOutcome (Ok tt) (set_cache w1 (delete (getCartKey uid) (cache w1)))
                (CacheGet (getCartKey uid) :: ev ++ [CacheDel (getCartKey uid)])
  | mkOutcome (Throw e) w1 ev =>
      mkOutcome (Throw e) w1 (CacheGet (getCartKey uid) :: ev)
  end.
Proof.
  intros Hc. unfold clearCart. unfold bind at 1. rewrite getCart_run, Hc.
  unfold bind at 1.
  destruct (items c) as [|a l] eqn:Hi.
  - reflexivity.
  - change (0 <? Z.of_nat (length (a :: l))) with true. cbv iota.
    destruct (releaseAll (a :: l) w) as [[[]|e] w1 ev]; reflexivity.
Qed.

(** C4, as the code has it.  [clearCart] releases the items in order, each
    for its whole quantity.  When every release succeeds there is one
    release per item and the record is deleted afterwards.  When a release
    throws, [clearCart] throws the same exception at once: the items after
    the failing one are not released and the record is not deleted. *)
Theorem clearCart_releases_until_failure (uid : string) (w : World) (c : Cart) :
  readCart uid w = Ok c ->
  (result (releaseAll (items c) w) = Ok tt ->
     result (clearCart uid w) = Ok tt /\
     events (clearCart uid w)
     = CacheGet (getCartKey uid) :: map release_of (items c) ++ [CacheDel (getCartKey uid)] /\
     cache (final (clearCart uid w)) !! getCartKey uid = None) /\
  (forall l1 item l2 e i,
     items c = l1 ++ item :: l2 ->
     result (releaseAll l1 w) = Ok tt ->
     inv_releaseReservation (productId item) (quantity item)
                            (inventory (final (releaseAll l1 w))) = (Some e, i) ->
     result (clearCart uid w) = Throw e /\
     events (clearCart uid w)
     = CacheGet (getCartKey uid) :: map release_of (l1 ++ [item]) /\
     cache (final (clearCart uid w)) = cache w).
Proof.
  intros Hc. rewrite (clearCart_run uid w c Hc). split.
  - intros Hok. pose proof (releaseAll_ok_events _ _ Hok) as Hev.
    pose proof (releaseAll_cache (items c) w) as Hca.
    destruct (releaseAll (items c) w) as [[[]|e] w1 ev]; simpl in *; [|discriminate].
    subst ev. repeat split. apply lookup_delete_eq.
  - intros l1 item l2 e i Hi Hok Hrel.
    rewrite Hi, (releaseAll_aborts l1 l2 item w e i Hok Hrel). simpl.
    repeat split. apply releaseAll_cache.
Qed.

(** ** Cart keys hold carts *)

Lemma typed_keys_insert_cart (m : gmap string entry) (key : string) (c : Cart) :
  typed_keys m -> typed_keys (<[key := ECart c]> m).
Proof.
  intros H uid s Hk.
  destruct (decide (key = getCartKey uid)) as [->|Hne].
  - rewrite lookup_insert_eq in Hk. discriminate.
  - rewrite lookup_insert_ne in Hk by exact Hne. exact (H uid s Hk).
Qed.

Lemma typed_keys_insert_probe (m : gmap string entry) (t : string) (v : entry) :
  typed_keys m -> typed_keys (<["test:" +:+ t := v]> m).
Proof.
  intros H uid s Hk.
  rewrite lookup_insert_ne in Hk by apply test_key_not_cart_key.
  exact (H uid s Hk).
Qed.

Lemma typed_keys_delete (m : gmap string entry) (key : string) :
  typed_keys m -> typed_keys (delete key m).
Proof.
  intros H uid s Hk.
  destruct (decide (key = getCartKey uid)) as [->|Hne].
  - rewrite lookup_delete_eq in Hk. discriminate.
  - rewrite lookup_delete_ne in Hk by exact Hne. exact (H uid s Hk).
Qed.

Ltac typed_leaf Hw :=
  cbn [final cache set_cache set_inventory];
  repeat first
    [ exact Hw
    | apply typed_keys_insert_probe
    | apply typed_keys_delete
    | apply typed_keys_insert_cart ].

(** No mutation puts a string under a cart key, so a store written by the
    service never makes [getCart] fail. *)
Lemma cart_keys_hold_carts_preserved (m : Mutation) (w : World) :
  cart_keys_hold_carts w -> cart_keys_hold_carts (final (perform m w)).
Proof.
  unfold cart_keys_hold_carts.
  destruct m as [uid dto|uid pid dto|uid pid|uid pid sel|uid sel|uid|uid pids];
    simpl; intros Hw.
  - unfold addToCart. unfold_prims. cbn.
    destruct (catalog w (dto_productId dto)) as [p|]; cbn; [|typed_leaf Hw].
    rewrite getCart_run, readCart_probe. cbn.
    destruct (readCart uid w) as [c|e] eqn:Hc; cbn; [|typed_leaf Hw].
    destruct (inv_reserveStock _ _ _) as [[] i]; cbn; typed_leaf Hw.
  - unfold updateCartItem.
    destruct (upd_quantity dto <=? 0); [typed_leaf Hw|].
    unfold_prims. rewrite getCart_run. cbn.
    destruct (readCart uid w) as [c|e] eqn:Hc; cbn; [|typed_leaf Hw].
    destruct (findIndex _ _) as [k|]; cbn; [|typed_leaf Hw].
    destruct (items c !! k) as [item|] eqn:Hitem; cbn; [|typed_leaf Hw].
    destruct (0 <? _).
    + destruct (inv_reserveStock _ _ _) as [[] i']; cbn; typed_leaf Hw.
    + destruct (_ <? 0); cbn; [|typed_leaf Hw].
      destruct (inv_releaseReservation _ _ _) as [[e|] i']; cbn; typed_leaf Hw.
  - unfold removeFromCart. unfold_prims. rewrite getCart_run. cbn.
    destruct (readCart uid w) as [c|e] eqn:Hc; cbn; [|typed_leaf Hw].
    destruct (findIndex _ _) as [k|]; cbn; [|typed_leaf Hw].
    destruct (items c !! k) as [item|]; cbn; [|typed_leaf Hw].
    destruct (inv_releaseReservation _ _ _) as [[e|] i']; cbn; [typed_leaf Hw|].
    destruct (delete k (items c)); cbn; typed_leaf Hw.
  - unfold toggleSelectItem. unfold_prims. rewrite getCart_run. cbn.
    destruct (readCart uid w) as [c|e] eqn:Hc; cbn; [|typed_leaf Hw].
    destruct (findIndex _ _) as [k|] eqn:Hk; cbn; typed_leaf Hw.
  - unfold toggleSelectAll. unfold_prims. rewrite getCart_run. cbn.
    destruct (readCart uid w) as [c|e] eqn:Hc; cbn; typed_leaf Hw.
  - unfold removeSelectedItems. unfold_prims. rewrite getCart_run. cbn.
    destruct (readCart uid w) as [c|e] eqn:Hc; cbn; [|typed_leaf Hw].
    destruct (List.filter _ _); cbn; typed_leaf Hw.
  - unfold removeItemsByProductIds. unfold_prims. rewrite getCart_run. cbn.
    destruct (readCart uid w) as [c|e] eqn:Hc; cbn; [|typed_leaf Hw].
    remember (List.filter _ (items c)) as kept eqn:Hkept. clear Hkept.
    destruct (items c) as [|a l]; cbn; [typed_leaf Hw|].
    destruct kept; cbn; typed_leaf Hw.
Qed.

(** ** Where a cart without items can be stored *)

Lemma carts_nonempty_insert_cart (m : gmap string entry) (key : string) (c : Cart) :
  carts_nonempty m -> items c <> [] -> carts_nonempty (<[key := ECart c]> m).
Proof.
  intros H Hc k c' Hk.
  destruct (decide (key = k)) as [->|Hne].
  - rewrite lookup_insert_eq in Hk. injection Hk as <-. exact Hc.
  - rewrite lookup_insert_ne in Hk by exact Hne. exact (H k c' Hk).
Qed.

Lemma carts_nonempty_insert_text (m : gmap string entry) (key s : string) :
  carts_nonempty m -> carts_nonempty (<[key := EText s]> m).
Proof.
  intros H k c' Hk.
  destruct (decide (key = k)) as [->|Hne].
  - rewrite lookup_insert_eq in Hk. discriminate.
  - rewrite lookup_insert_ne in Hk by exact Hne. exact (H k c' Hk).
Qed.

Lemma carts_nonempty_delete (m : gmap string entry) (key : string) :
  carts_nonempty m -> carts_nonempty (delete key m).
Proof.
  intros H k c' Hk.
  destruct (decide (key = k)) as [->|Hne].
  - rewrite lookup_delete_eq in Hk. discriminate.
  - rewrite lookup_delete_ne in Hk by exact Hne. exact (H k c' Hk).
Qed.

Lemma alter_nonempty {A} (f : A -> A) (l : list A) (k : nat) (x : A) :
  l !! k = Some x -> alter f k l <> [].
Proof. destruct l; [discriminate|]. destruct k; discriminate. Qed.

Lemma findIndex_lookup {A} (p : A -> bool) (l : list A) (k : nat) :
  findIndex p l = Some k -> exists x, l !! k = Some x.
Proof.
  intros H. destruct (findIndex_Some p l k H) as (x & Hx & _). eauto.
Qed.

Ltac nonempty_leaf Hw :=
  unfold no_empty_record in *; cbn [final cache set_cache set_inventory];
  repeat first
    [ exact Hw
    | apply carts_nonempty_insert_text
    | apply carts_nonempty_delete
    | apply carts_nonempty_insert_cart ];
  cbn [items recalculate]; try discriminate; eauto using alter_nonempty.

Lemma no_empty_record_preserved (m : Mutation) (w : World) :
  keeps_records_nonempty m w ->
  no_empty_record w -> no_empty_record (final (perform m w)).
Proof.
  destruct m as [uid dto|uid pid dto|uid pid|uid pid sel|uid sel|uid|uid pids];
    simpl; intros Hsafe Hw.
  - unfold addToCart. unfold_prims. cbn.
    destruct (catalog w (dto_productId dto)) as [p|]; cbn; [|nonempty_leaf Hw].
    rewrite getCart_run, readCart_probe. cbn.
    destruct (readCart uid w) as [c|e] eqn:Hc; cbn; [|nonempty_leaf Hw].
    destruct (inv_reserveStock _ _ _) as [[] i]; cbn; [|nonempty_leaf Hw].
    destruct (findIndex _ _) as [k|] eqn:Hk.
    + destruct (findIndex_lookup _ _ _ Hk) as [x Hx]. nonempty_leaf Hw.
    + nonempty_leaf Hw. destruct (items c); discriminate.
  - unfold updateCartItem.
    destruct (upd_quantity dto <=? 0); [nonempty_leaf Hw|].
    unfold_prims. rewrite getCart_run. cbn.
    destruct (readCart uid w) as [c|e] eqn:Hc; cbn; [|nonempty_leaf Hw].
    destruct (findIndex _ _) as [k|]; cbn; [|nonempty_leaf Hw].
    destruct (items c !! k) as [item|] eqn:Hitem; cbn; [|nonempty_leaf Hw].
    destruct (0 <? _).
    + destruct (inv_reserveStock _ _ _) as [[] i']; cbn; nonempty_leaf Hw.
    + destruct (_ <? 0); cbn; [|nonempty_leaf Hw].
      destruct (inv_releaseReservation _ _ _) as [[e|] i']; cbn; nonempty_leaf Hw.
  - unfold removeFromCart. unfold_prims. rewrite getCart_run. cbn.
    destruct (readCart uid w) as [c|e] eqn:Hc; cbn; [|nonempty_leaf Hw].
    destruct (findIndex _ _) as [k|]; cbn; [|nonempty_leaf Hw].
    destruct (items c !! k) as [item|]; cbn; [|nonempty_leaf Hw].
    destruct (inv_releaseReservation _ _ _) as [[e|] i']; cbn; [nonempty_leaf Hw|].
    destruct (delete k (items c)); cbn; nonempty_leaf Hw.
  - unfold toggleSelectItem. unfold_prims. rewrite getCart_run. cbn.
    destruct (readCart uid w) as [c|e] eqn:Hc; cbn; [|nonempty_leaf Hw].
    destruct (findIndex _ _) as [k|] eqn:Hk; cbn; [|nonempty_leaf Hw].
    destruct (findIndex_lookup _ _ _ Hk) as [x Hx]. nonempty_leaf Hw.
  - unfold toggleSelectAll. unfold_prims. rewrite getCart_run. cbn.
    unfold readCart.
    destruct (cache w !! getCartKey uid) as [[c|s]|] eqn:Hc; cbn;
      [|nonempty_leaf Hw|congruence].
    nonempty_leaf Hw. pose proof (Hw _ _ Hc). destruct (items c); [congruence|discriminate].
  - unfold removeSelectedItems. unfold_prims. rewrite getCart_run. cbn.
    destruct (readCart uid w) as [c|e] eqn:Hc; cbn; [|nonempty_leaf Hw].
    destruct (List.filter _ _); cbn; nonempty_leaf Hw.
  - unfold removeItemsByProductIds. unfold_prims. rewrite getCart_run. cbn.
    destruct (readCart uid w) as [c|e] eqn:Hc; cbn; [|nonempty_leaf Hw].
    remember (List.filter _ (items c)) as kept eqn:Hkept. clear Hkept.
    destruct (items c) as [|a l]; cbn; [nonempty_leaf Hw|].
    destruct kept; cbn; nonempty_leaf Hw.
Qed.

End Properties.

(** * The properties on sample data *)

(** The totals returned along a session of user u1. *)
Example session_totals :
  map (fun o => match result o with
                | Ok c => Some (totalItems c, totalPrice c)
                | Throw _ => None
                end)
      (serve [AddToCart "u1" (mkAddToCartDto "P1" 2);
              ToggleSelectAll "u1" false;
              UpdateCartItem "u1" "P1" (mkUpdateCartItemDto 3);
              UpdateCartItem "u1" "P1" (mkUpdateCartItemDto 30);
              RemoveFromCart "u1" "P1"]
             world_no_cart)
  = [Some (2, 1800%Q); Some (2, 1800%Q); Some (3, 2700%Q); None; Some (0, 0%Q)].
Proof. vm_compute. reflexivity. Qed.

(** Removing the last line deletes the record, and the next read
    synthesizes an empty cart. *)
Example removeFromCart_last_line :
  let o := removeFromCart "u1" "P1" world_one_left in
  events o = [CacheGet "cart:u1"; ReleaseReservation "P1" 5; CacheDel "cart:u1"] /\
  cache (final o) !! "cart:u1" = None /\
  result (getCart "u1" (final o)) = Ok (emptyCart "u1" 1700000000000).
Proof. vm_compute. repeat split. Qed.


Lemma addToCart_reserves_only_the_increment_witness :
  inventory_calls
    (events (addToCart "u1" (mkAddToCartDto "P1" 4) world_one_left))
  = [ReserveStock "P1" 4] /\
  result (addToCart "u1" (mkAddToCartDto "P1" 4) world_one_left)
  = Throw (BadRequestException insufficient_stock_message) /\
  cache (final (addToCart "u1" (mkAddToCartDto "P1" 4) world_one_left)) !! getCartKey "u1"
  = Some (ECart cart_five).
Proof.
  destruct (addToCart_reserves_only_the_increment
              "u1" (mkAddToCartDto "P1" 4) world_one_left P1 cart_five)
    as [Hcalls Hrefused].
  - reflexivity.
  - vm_compute. reflexivity.
  - destruct Hrefused as (Hres & Hcache & _).
    + vm_compute. reflexivity.
    + split; [exact Hcalls|]. split; [exact Hres|].
      rewrite Hcache. vm_compute. reflexivity.
Defined.

Lemma calculateFinalPrice_discount_witness :
  (exists r : Z,
     calculateFinalPrice 125 (Some (644 # 10)) = inject_Z r /\
     ((6262818231812094 # 140737488355328) - (1 # 2) < inject_Z r)%Q /\
     (inject_Z r <= (6262818231812094 # 140737488355328) + (1 # 2))%Q) /\
  calculateFinalPrice 200 (Some (-5)%Q) = 200%Q /\
  exists c, result (addToCart "u1" (mkAddToCartDto "P1" 2) world_no_cart) = Ok c /\
            map price (items c) = [900%Q] /\
            map quantity (items c) = [2] /\
            totalPrice c = 1800%Q /\ totalItems c = 2.
Proof.
  destruct (@calculateFinalPrice_discount StockInventory)
    as (Hpos & Hneg & _ & _ & _ & _ & _ & _ & Hadd).
  split; [apply Hpos; vm_compute; reflexivity|].
  split; [apply Hneg; discriminate|].
  apply (Hadd "u1" "Cleanser" world_no_cart {["P1" := mkStock 8 2]}).
  - vm_compute. reflexivity.
  - reflexivity.
  - vm_compute. reflexivity.
Defined.

Lemma addToCart_merges_or_appends_witness :
  exists c',
    result (addToCart "u1" (mkAddToCartDto "P1" 1) world_one_left) = Ok c' /\
    map quantity (items c') = [6] /\ map price (items c') = [900%Q].
Proof.
  destruct (addToCart_merges_or_appends
              "u1" (mkAddToCartDto "P1" 1) world_one_left P1 cart_five
              {["P1" := mkStock 0 6]})
    as (c' & Hres & _ & Hpresent & _).
  - reflexivity.
  - vm_compute. reflexivity.
  - vm_compute. reflexivity.
  - exists c'. split; [exact Hres|].
    destruct (Hpresent O) as (Hitems & _); [reflexivity|].
    rewrite Hitems. split; reflexivity.
Defined.


Lemma selected_and_kept_partition_witness :
  exists c',
    result (removeSelectedItems "u1" world_two_lines) = Ok c' /\
    getSelectedItems cart_two = [sample_item "A" 3 (Some true)] /\
    items c' = [sample_item "B" 3 None] /\
    items cart_two ≡ₚ getSelectedItems cart_two ++ items c'.
Proof.
  destruct (selected_and_kept_partition "u1" world_two_lines cart_two)
    as (c' & Hres & Hsel & Hkept & _ & _ & Hperm & _).
  - vm_compute. reflexivity.
  - exists c'. split; [exact Hres|]. split; [rewrite Hsel; reflexivity|].
    split; [rewrite Hkept; reflexivity|exact Hperm].
Defined.

Lemma updateCartItem_rejects_nonpositive_first_witness :
  updateCartItem "nobody" "P9" (mkUpdateCartItemDto 0) world_no_cart =
  mkOutcome (Throw (BadRequestException "Quantity must be greater than 0"))
            world_no_cart [].
Proof.
  apply updateCartItem_rejects_nonpositive_first. simpl. lia.
Defined.

(** The example of the specification: two lines of three units each, two
    release calls of three units, and the record is gone; and the run in
    which the first release throws. *)
Lemma clearCart_releases_until_failure_witness :
  (events (clearCart "u1" world_two_lines)
   = [CacheGet "cart:u1"; ReleaseReservation "A" 3; ReleaseReservation "B" 3;
      CacheDel "cart:u1"] /\
   cache (final (clearCart "u1" world_two_lines)) !! "cart:u1" = None) /\
  (events (clearCart "u1" world_release_fails)
   = [CacheGet "cart:u1"; ReleaseReservation "A" 3] /\
   cache (final (clearCart "u1" world_release_fails)) = cache world_release_fails).
Proof.
  split.
  - destruct (clearCart_releases_until_failure "u1" world_two_lines cart_two)
      as [Hok _]; [vm_compute; reflexivity|].
    destruct Hok as (_ & Hev & Hgone); [vm_compute; reflexivity|].
    split; [exact Hev|exact Hgone].
  - destruct (clearCart_releases_until_failure "u1" world_release_fails cart_two)
      as [_ Hfail]; [vm_compute; reflexivity|].
    destruct (Hfail [] (sample_item "A" 3 (Some true)) [sample_item "B" 3 None]
                    (NotFoundException "Inventory for product A not found")
                    {["B" := mkStock 0 3]})
      as (_ & Hev & Hkept).
    + reflexivity.
    + reflexivity.
    + vm_compute. reflexivity.
    + split; [exact Hev|exact Hkept].
Defined.

(** C4, as the claim states it, fails when a release throws: for the cart
    with the lines A and B, where the release of A throws, B is never
    released and the record stays in the cache. *)
Lemma clearCart_stops_at_failed_release :
  ~ clearCart_releases_every_item "u1" cart_two world_release_fails.
Proof.
  intros [Hcalls _]. vm_compute in Hcalls. discriminate Hcalls.
Qed.

(** C3, at the failing input: the user holds five units, one more unit is
    available, and the request for ten units is refused with a message
    that gives five, the quantity in the cart, as the stock available. *)
Theorem updateCartItem_reports_cart_quantity_as_stock :
  available_units "P1" (inventory world_one_left) = 1 /\
  result (updateCartItem "u1" "P1" (mkUpdateCartItemDto 10) world_one_left)
  = Throw (BadRequestException "Cannot increase quantity. Only 5 available in stock.") /\
  events (updateCartItem "u1" "P1" (mkUpdateCartItemDto 10) world_one_left)
  = [CacheGet "cart:u1"; ReserveStock "P1" 5] /\
  cache (final (updateCartItem "u1" "P1" (mkUpdateCartItemDto 10) world_one_left))
  = cache world_one_left.
Proof.
  split; [vm_compute; reflexivity|].
  rewrite (updateCartItem_refused "u1" "P1" (mkUpdateCartItemDto 10) world_one_left
             cart_five O (sample_item "P1" 5 (Some true)) {["P1" := mkStock 1 5]}).
  - repeat split.
  - vm_compute. reflexivity.
  - reflexivity.
  - reflexivity.
  - reflexivity.
  - reflexivity.
  - vm_compute. reflexivity.
Qed.

(** C5, at the failing input: [toggleSelectAll] for a user without a
    stored record writes the synthesized empty cart into the cache. *)
Theorem toggleSelectAll_stores_empty_cart :
  cache world_no_cart !! "cart:u1" = None /\
  exists c, cache (final (toggleSelectAll "u1" true world_no_cart)) !! "cart:u1"
            = Some (ECart c) /\ items c = [] /\
            events (toggleSelectAll "u1" true world_no_cart)
            = [CacheGet "cart:u1"; CacheSet "cart:u1" (ECart c) CART_TTL].
Proof.
  split; [vm_compute; reflexivity|].
  eexists. split; [|split].
  - unfold toggleSelectAll. unfold bind, cache_get, cache_set, Date_now, ret.
    rewrite getCart_run. cbn. apply lookup_insert_eq.
  - reflexivity.
  - reflexivity.
Qed.

(** * Further properties of the cart service *)

(** ** Lists of items *)

Lemma hasProductId_true (pid : string) (item : CartItem) :
  hasProductId pid item = true <-> productId item = pid.
Proof. unfold hasProductId. apply String.eqb_eq. Qed.

Lemma hasProductId_swap (pid pid' : string) (item : CartItem) :
  hasProductId pid item = true ->
  hasProductId pid' item = String.eqb pid pid'.
Proof. intros H. apply hasProductId_true in H. unfold hasProductId. rewrite H. reflexivity. Qed.

(** Changing one line without changing its product changes the units of
    that product by the change of the line, and no other units. *)
Lemma quantity_of_alter (pid : string) (f : CartItem -> CartItem)
      (l : list CartItem) (k : nat) (x : CartItem) :
  (forall item, productId (f item) = productId item) ->
  l !! k = Some x ->
  quantity_of pid (alter f k l)
  = quantity_of pid l + (if hasProductId pid x then quantity (f x) - quantity x else 0).
Proof.
  intros Hf. unfold quantity_of, lines. revert k.
  induction l as [|a l IH]; intros k Hk; [destruct k; discriminate|].
  destruct k as [|k]; simpl in *.
  - injection Hk as ->. unfold hasProductId at 1. rewrite Hf.
    fold (hasProductId pid x). destruct (hasProductId pid x); simpl; lia.
  - specialize (IH k Hk). change (alter f k l) with (list_alter f k l) in IH.
    destruct (hasProductId pid a); simpl; rewrite IH; lia.
Qed.

Lemma quantity_of_app (pid : string) (l1 l2 : list CartItem) :
  quantity_of pid (l1 ++ l2) = quantity_of pid l1 + quantity_of pid l2.
Proof.
  unfold quantity_of. rewrite lines_app.
  induction (lines pid l1) as [|a l IH]; simpl; lia.
Qed.

Lemma quantity_of_delete (pid : string) (l : list CartItem) (k : nat) (x : CartItem) :
  l !! k = Some x ->
  quantity_of pid (delete k l)
  = quantity_of pid l - (if hasProductId pid x then quantity x else 0).
Proof.
  unfold quantity_of, lines. revert k.
  induction l as [|a l IH]; intros k Hk; [destruct k; discriminate|].
  destruct k as [|k]; simpl in *.
  - injection Hk as ->. destruct (hasProductId pid x); simpl; lia.
  - specialize (IH k Hk).
    destruct (hasProductId pid a); simpl; rewrite IH; lia.
Qed.

Lemma findIndex_app_new {A} (p : A -> bool) (l : list A) (x : A) :
  findIndex p l = None -> p x = true -> findIndex p (l ++ [x]) = Some (length l).
Proof.
  induction l as [|a l IH]; simpl; intros Hn Hx.
  - rewrite Hx. reflexivity.
  - destruct (p a); [discriminate|].
    destruct (findIndex p l); [discriminate|]. rewrite (IH eq_refl Hx). reflexivity.
Qed.

Lemma delete_app_last {A} (l : list A) (x : A) : delete (length l) (l ++ [x]) = l.
Proof. induction l as [|a l IH]; simpl; [reflexivity|]. f_equal. exact IH. Qed.

Section Further.
Context `{Inv : InventoryService}.

Local Arguments getCart : simpl never.

Ltac run_prims :=
  unfold bind, cache_get, cache_set, cache_del, findOne, reserveStock,
         releaseReservation, Date_now, ret, throw.

(** ** The remaining methods, case by case *)

(** What [updateCartItem] does with the line [item] once the quantity is
    accepted and the line is found. *)
Lemma updateCartItem_run (uid pid : string) (dto : UpdateCartItemDto) (w : World)
      (c : Cart) (k : nat) (item : CartItem) :
  0 < upd_quantity dto ->
  readCart uid w = Ok c ->
  findIndex (hasProductId pid) (items c) = Some k ->
  items c !! k = Some item ->
  let qty := upd_quantity dto in
  let diff := qty - quantity item in
  let cart' := recalculate c (alter (setQuantity qty) k (items c)) (clock w) in
  let key := getCartKey uid in
  let stored i :=
    mkWorld (<[key := ECart cart']> (cache w)) (catalog w) i (clock w) in
  updateCartItem uid pid dto w =
  if 0 <? diff then
    match inv_reserveStock pid diff (inventory w) with
    | (true, i) =>
        mkOutcome (Ok cart') (stored i)
                  [CacheGet key; ReserveStock pid diff; CacheSet key (ECart cart') CART_TTL]
    | (false, i) =>
        mkOutcome (Throw (BadRequestException
                            ("Cannot increase quantity. Only " +:+ pretty (quantity item)
                             +:+ " available in stock.")))
                  (set_inventory w i) [CacheGet key; ReserveStock pid diff]
    end
  else if diff <? 0 then
    match inv_releaseReservation pid (Z.abs diff) (inventory w) with
    | (None, i) =>
        mkOutcome (Ok cart') (stored i)
                  [CacheGet key; ReleaseReservation pid (Z.abs diff);
                   CacheSet key (ECart cart') CART_TTL]
    | (Some e, i) =>
        mkOutcome (Throw e) (set_inventory w i)
                  [CacheGet key; ReleaseReservation pid (Z.abs diff)]
    end
  else
    mkOutcome (Ok cart') (stored (inventory w)) [CacheGet key; CacheSet key (ECart cart') CART_TTL].
Proof.
  intros Hpos Hc Hk Hitem. unfold updateCartItem.
  destruct (upd_quantity dto <=? 0) eqn:E; [apply Z.leb_le in E; lia|].
  run_prims. rewrite getCart_run, Hc. cbn. rewrite Hk, Hitem. cbn.
  destruct (0 <? upd_quantity dto - quantity item).
  - destruct (inv_reserveStock _ _ _) as [[] i]; reflexivity.
  - destruct (upd_quantity dto - quantity item <? 0); [|reflexivity].
    destruct (inv_releaseReservation _ _ _) as [[e|] i]; reflexivity.
Qed.

Lemma removeFromCart_run (uid pid : string) (w : World)
      (c : Cart) (k : nat) (item : CartItem) :
  readCart uid w = Ok c ->
  findIndex (hasProductId pid) (items c) = Some k ->
  items c !! k = Some item ->
  let kept := delete k (items c) in
  let cart' := recalculate c kept (clock w) in
  let key := getCartKey uid in
  let release := ReleaseReservation (productId item) (quantity item) in
  removeFromCart uid pid w =
  match inv_releaseReservation (productId item) (quantity item) (inventory w) with
  | (Some e, i) => mkOutcome (Throw e) (set_inventory w i) [CacheGet key; release]
  | (None, i) =>
      match kept with
      | [] => mkOutcome (Ok cart') (mkWorld (delete key (cache w)) (catalog w) i (clock w))
                        [CacheGet key; release; CacheDel key]
      | _ :: _ => mkOutcome (Ok cart')
                            (mkWorld (<[key := ECart cart']> (cache w)) (catalog w) i (clock w))
                            [CacheGet key; release; CacheSet key (ECart cart') CART_TTL]
      end
  end.
Proof.
  intros Hc Hk Hitem. unfold removeFromCart.
  run_prims. rewrite getCart_run, Hc. cbn. rewrite Hk, Hitem. cbn.
  destruct (inv_releaseReservation _ _ _) as [[e|] i]; [reflexivity|].
  destruct (delete k (items c)); reflexivity.
Qed.

(** A product that is not in the cart: the three methods that look a line
    up stop after the read. *)
Lemma missing_line_run (uid pid : string) (w : World) (c : Cart) :
  readCart uid w = Ok c ->
  findIndex (hasProductId pid) (items c) = None ->
  (forall dto, 0 < upd_quantity dto ->
     updateCartItem uid pid dto w =
     mkOutcome (Throw (NotFoundException
                         ("Product with ID " +:+ pid +:+ " not found in cart")))
               w [CacheGet (getCartKey uid)]) /\
  removeFromCart uid pid w =
  mkOutcome (Throw (NotFoundException
                      ("Product with ID " +:+ pid +:+ " not found in cart")))
            w [CacheGet (getCartKey uid)] /\
  (forall sel, toggleSelectItem uid pid sel w =
     mkOutcome (Throw (NotFoundException "Product not found in cart"))
               w [CacheGet (getCartKey uid)]).
Proof.
  intros Hc Hk. split; [|split].
  - intros dto Hpos. unfold updateCartItem.
    destruct (upd_quantity dto <=? 0) eqn:E; [apply Z.leb_le in E; lia|].
    run_prims. rewrite getCart_run, Hc. cbn. rewrite Hk. reflexivity.
  - unfold removeFromCart. run_prims. rewrite getCart_run, Hc. cbn. rewrite Hk. reflexivity.
  - intros sel. unfold toggleSelectItem. run_prims. rewrite getCart_run, Hc. cbn.
    rewrite Hk. reflexivity.
Qed.

Lemma toggleSelectItem_run (uid pid : string) (sel : bool) (w : World)
      (c : Cart) (k : nat) :
  readCart uid w = Ok c ->
  findIndex (hasProductId pid) (items c) = Some k ->
  let cart' := mkCart (userId c) (alter (setSelected sel) k (items c))
                      (totalItems c) (totalPrice c) (clock w) in
  toggleSelectItem uid pid sel w =
  mkOutcome (Ok cart') (set_cache w (<[getCartKey uid := ECart cart']> (cache w)))
            [CacheGet (getCartKey uid); CacheSet (getCartKey uid) (ECart cart') CART_TTL].
Proof.
  intros Hc Hk. unfold toggleSelectItem. run_prims. rewrite getCart_run, Hc. cbn.
  rewrite Hk. reflexivity.
Qed.

Lemma toggleSelectAll_run (uid : string) (sel : bool) (w : World) (c : Cart) :
  readCart uid w = Ok c ->
  let cart' := mkCart (userId c) (map (setSelected sel) (items c))
                      (totalItems c) (totalPrice c) (clock w) in
  toggleSelectAll uid sel w =
  mkOutcome (Ok cart') (set_cache w (<[getCartKey uid := ECart cart']> (cache w)))
            [CacheGet (getCartKey uid); CacheSet (getCartKey uid) (ECart cart') CART_TTL].
Proof.
  intros Hc. unfold toggleSelectAll. run_prims. rewrite getCart_run, Hc. reflexivity.
Qed.


Lemma getCartKey_inj (u v : string) : getCartKey u = getCartKey v -> u = v.
Proof. unfold getCartKey. simpl. intros H. injection H. auto. Qed.

(** ** Reservations follow quantities *)

Lemma net_reserved_app (pid : string) (l1 l2 : list event) :
  net_reserved pid (l1 ++ l2) = net_reserved pid l1 + net_reserved pid l2.
Proof.
  induction l1 as [|e l1 IH]; simpl; [reflexivity|].
  destruct e; rewrite ?IH; lia.
Qed.

Lemma net_reserved_releases (pid : string) (l : list CartItem) :
  net_reserved pid (map release_of l) = - quantity_of pid l.
Proof.
  unfold quantity_of, lines. induction l as [|a l IH]; simpl; [reflexivity|].
  rewrite IH. unfold hasProductId. destruct (String.eqb (productId a) pid); simpl; lia.
Qed.

(** X1.  A successful [addToCart] changes the units that the cart holds of
    each product by exactly the units it reserved of that product: the
    added quantity for the product of the request, nothing for the others. *)
Theorem addToCart_reserves_what_it_adds
        (uid : string) (dto : AddToCartDto) (w : World) (c c' : Cart) :
  readCart uid w = Ok c ->
  result (addToCart uid dto w) = Ok c' ->
  forall pid,
    quantity_of pid (items c')
    = quantity_of pid (items c) + net_reserved pid (events (addToCart uid dto w)) /\
    net_reserved pid (events (addToCart uid dto w))
    = if String.eqb (dto_productId dto) pid then dto_quantity dto else 0.
Proof.
  intros Hc.
  destruct (catalog w (dto_productId dto)) as [p|] eqn:Hp;
    [|rewrite (addToCart_unknown_product uid dto w Hp); discriminate].
  destruct (inv_reserveStock (dto_productId dto) (dto_quantity dto) (inventory w))
    as [[] i] eqn:Hr;
    [|rewrite (addToCart_refused uid dto w p c i Hp Hc Hr); discriminate].
  rewrite (addToCart_reserved uid dto w p c i Hp Hc Hr). cbn [result events].
  intros [= <-] pid. cbn [items recalculate].
  assert (Hnet : net_reserved pid
            (probe_calls w ++
             [FindOne (dto_productId dto); CacheGet (getCartKey uid);
              ReserveStock (dto_productId dto) (dto_quantity dto);
              CacheSet (getCartKey uid)
                (ECart (recalculate c
                   match findIndex (hasProductId (dto_productId dto)) (items c) with
                   | Some k =>
                       alter (readded (calculateFinalPrice (prod_sellingPrice p)
                                                           (prod_salePercentage p))
                                      p (dto_quantity dto)) k (items c)
                   | None =>
                       items c ++
                       [newItem (dto_productId dto)
                                (calculateFinalPrice (prod_sellingPrice p)
                                                     (prod_salePercentage p))
                                p (dto_quantity dto) (clock w)]
                   end (clock w))) CART_TTL])
          = if String.eqb (dto_productId dto) pid then dto_quantity dto else 0).
  { simpl. destruct (String.eqb (dto_productId dto) pid); lia. }
  rewrite Hnet. split; [|reflexivity].
  destruct (findIndex (hasProductId (dto_productId dto)) (items c)) as [k|] eqn:Hk.
  - destruct (findIndex_Some _ _ _ Hk) as (x & Hx & Hpx & _).
    rewrite (quantity_of_alter pid _ (items c) k x); [|reflexivity|exact Hx].
    rewrite (hasProductId_swap _ pid x Hpx). simpl.
    destruct (String.eqb (dto_productId dto) pid); lia.
  - rewrite quantity_of_app. unfold quantity_of at 2, lines, hasProductId. simpl.
    destruct (String.eqb (dto_productId dto) pid); simpl; lia.
Qed.

(** X2.  A successful [updateCartItem] found the line of the product and
    stores the cart with the quantity of that line replaced.  It makes one
    call to the inventory, a reservation of exactly the increase or a
    release of exactly the decrease, both for that product, and no call at
    all when the quantity stays the same.  The units of the product change
    by the difference, the units of every other product stay, and that is
    what was reserved or released of each. *)
Theorem updateCartItem_reserves_the_difference
        (uid pid : string) (dto : UpdateCartItemDto) (w : World) (c c' : Cart) :
  readCart uid w = Ok c ->
  result (updateCartItem uid pid dto w) = Ok c' ->
  exists (k : nat) (item : CartItem),
    findIndex (hasProductId pid) (items c) = Some k /\
    items c !! k = Some item /\
    productId item = pid /\
    items c' = alter (setQuantity (upd_quantity dto)) k (items c) /\
    (quantity item < upd_quantity dto ->
       inventory_calls (events (updateCartItem uid pid dto w))
       = [ReserveStock pid (upd_quantity dto - quantity item)]) /\
    (upd_quantity dto < quantity item ->
       inventory_calls (events (updateCartItem uid pid dto w))
       = [ReleaseReservation pid (quantity item - upd_quantity dto)]) /\
    (upd_quantity dto = quantity item ->
       inventory_calls (events (updateCartItem uid pid dto w)) = [] /\
       inventory (final (updateCartItem uid pid dto w)) = inventory w) /\
    (forall pid',
       net_reserved pid' (events (updateCartItem uid pid dto w))
       = if String.eqb pid pid' then upd_quantity dto - quantity item else 0) /\
    (forall pid',
       quantity_of pid' (items c')
       = quantity_of pid' (items c)
         + (if String.eqb pid pid' then upd_quantity dto - quantity item else 0)) /\
    (forall pid',
       quantity_of pid' (items c')
       = quantity_of pid' (items c)
         + net_reserved pid' (events (updateCartItem uid pid dto w))).
Proof.
  intros Hc.
  destruct (Z.leb_spec (upd_quantity dto) 0) as [Hle|Hpos].
  { unfold updateCartItem. destruct (Z.leb_spec (upd_quantity dto) 0); [discriminate|lia]. }
  destruct (findIndex (hasProductId pid) (items c)) as [k|] eqn:Hk.
  2:{ destruct (missing_line_run uid pid w c Hc Hk) as (Hu & _).
      rewrite (Hu dto Hpos). discriminate. }
  destruct (findIndex_Some _ _ _ Hk) as (x & Hx & Hpx & _).
  rewrite (updateCartItem_run uid pid dto w c k x Hpos Hc Hk Hx). cbv zeta.
  assert (Hq : forall pid',
             quantity_of pid' (alter (setQuantity (upd_quantity dto)) k (items c))
             = quantity_of pid' (items c)
               + (if String.eqb pid pid' then upd_quantity dto - quantity x else 0)).
  { intros pid'. rewrite (quantity_of_alter pid' _ (items c) k x); [|reflexivity|exact Hx].
    rewrite (hasProductId_swap _ pid' x Hpx). reflexivity. }
  destruct (Z.ltb_spec 0 (upd_quantity dto - quantity x)) as [Hup|Hnup].
  - destruct (inv_reserveStock _ _ _) as [[] i]; [|discriminate].
    cbn [result events final inventory]. intros [= <-]. cbn [items recalculate].
    assert (Hn : forall pid',
               net_reserved pid'
                 [CacheGet (getCartKey uid);
                  ReserveStock pid (upd_quantity dto - quantity x);
                  CacheSet (getCartKey uid)
                    (ECart (recalculate c (alter (setQuantity (upd_quantity dto)) k (items c))
                                        (clock w))) CART_TTL]
               = if String.eqb pid pid' then upd_quantity dto - quantity x else 0).
    { intros pid'. simpl. destruct (String.eqb pid pid'); lia. }
    exists k, x. split; [reflexivity|]. split; [exact Hx|].
    split; [apply hasProductId_true, Hpx|]. split; [reflexivity|].
    split; [intros _; reflexivity|]. split; [intros; lia|]. split; [intros; lia|].
    split; [exact Hn|]. split; [exact Hq|].
    intros pid'. rewrite Hq, Hn. reflexivity.
  - destruct (Z.ltb_spec (upd_quantity dto - quantity x) 0) as [Hdown|Hsame].
    + assert (Habs : Z.abs (upd_quantity dto - quantity x)
                     = quantity x - upd_quantity dto) by lia.
      rewrite Habs.
      destruct (inv_releaseReservation _ _ _) as [[e|] i]; [discriminate|].
      cbn [result events final inventory]. intros [= <-]. cbn [items recalculate].
      assert (Hn : forall pid',
                 net_reserved pid'
                   [CacheGet (getCartKey uid);
                    ReleaseReservation pid (quantity x - upd_quantity dto);
                    CacheSet (getCartKey uid)
                      (ECart (recalculate c (alter (setQuantity (upd_quantity dto)) k (items c))
                                          (clock w))) CART_TTL]
                 = if String.eqb pid pid' then upd_quantity dto - quantity x else 0).
      { intros pid'. simpl. destruct (String.eqb pid pid'); lia. }
      exists k, x. split; [reflexivity|]. split; [exact Hx|].
      split; [apply hasProductId_true, Hpx|]. split; [reflexivity|].
      split; [intros; lia|]. split; [intros _; reflexivity|]. split; [intros; lia|].
      split; [exact Hn|]. split; [exact Hq|].
      intros pid'. rewrite Hq, Hn. reflexivity.
    + cbn [result events final inventory]. intros [= <-]. cbn [items recalculate].
      assert (Hn : forall pid',
                 net_reserved pid'
                   [CacheGet (getCartKey uid);
                    CacheSet (getCartKey uid)
                      (ECart (recalculate c (alter (setQuantity (upd_quantity dto)) k (items c))
                                          (clock w))) CART_TTL]
                 = if String.eqb pid pid' then upd_quantity dto - quantity x else 0).
      { intros pid'. simpl. destruct (String.eqb pid pid'); lia. }
      exists k, x. split; [reflexivity|]. split; [exact Hx|].
      split; [apply hasProductId_true, Hpx|]. split; [reflexivity|].
      split; [intros; lia|]. split; [intros; lia|].
      split; [intros _; split; reflexivity|].
      split; [exact Hn|]. split; [exact Hq|].
      intros pid'. rewrite Hq, Hn. reflexivity.
Qed.

(** X3.  A successful [removeFromCart] found the line of the product and
    returns the cart without that line, one line shorter.  It makes one
    call to the inventory: the release of the whole quantity of that line,
    for that product.  The units of the product drop by that quantity,
    the units of every other product stay, and that is what was released
    of each. *)
Theorem removeFromCart_releases_what_it_removes
        (uid pid : string) (w : World) (c c' : Cart) :
  readCart uid w = Ok c ->
  result (removeFromCart uid pid w) = Ok c' ->
  exists (k : nat) (item : CartItem),
    findIndex (hasProductId pid) (items c) = Some k /\
    items c !! k = Some item /\
    productId item = pid /\
    items c' = delete k (items c) /\
    length (items c) = S (length (items c')) /\
    inventory_calls (events (removeFromCart uid pid w))
    = [ReleaseReservation pid (quantity item)] /\
    (forall pid',
       net_reserved pid' (events (removeFromCart uid pid w))
       = if String.eqb pid pid' then - quantity item else 0) /\
    (forall pid',
       quantity_of pid' (items c')
       = quantity_of pid' (items c)
         - (if String.eqb pid pid' then quantity item else 0)) /\
    (forall pid',
       quantity_of pid' (items c')
       = quantity_of pid' (items c)
         + net_reserved pid' (events (removeFromCart uid pid w))).
Proof.
  intros Hc.
  destruct (findIndex (hasProductId pid) (items c)) as [k|] eqn:Hk.
  2:{ destruct (missing_line_run uid pid w c Hc Hk) as (_ & Hr & _).
      rewrite Hr. discriminate. }
  destruct (findIndex_Some _ _ _ Hk) as (x & Hx & Hpx & _).
  rewrite (removeFromCart_run uid pid w c k x Hc Hk Hx). cbv zeta.
  assert (Hpid : productId x = pid) by (apply hasProductId_true, Hpx).
  rewrite Hpid.
  destruct (inv_releaseReservation _ _ _) as [[e|] i]; [discriminate|].
  assert (Hq : forall pid',
             quantity_of pid' (delete k (items c))
             = quantity_of pid' (items c)
               - (if String.eqb pid pid' then quantity x else 0)).
  { intros pid'. rewrite (quantity_of_delete pid' (items c) k x Hx).
    rewrite (hasProductId_swap _ pid' x Hpx). reflexivity. }
  assert (Hlen : length (items c) = S (length (delete k (items c)))).
  { apply lookup_lt_Some in Hx. rewrite length_delete; [lia|eauto using lookup_lt_is_Some_2]. }
  assert (Hn : forall pid' (tail : list event),
             (forall pid', net_reserved pid' tail = 0) ->
             net_reserved pid'
               (CacheGet (getCartKey uid) :: ReleaseReservation pid (quantity x) :: tail)
             = if String.eqb pid pid' then - quantity x else 0).
  { intros pid' tail Ht. simpl. rewrite Ht. destruct (String.eqb pid pid'); lia. }
  revert Hq Hlen.
  destruct (delete k (items c)) as [|a l] eqn:Hd;
    cbn [result events]; intros Hq Hlen [= <-]; cbn [items recalculate];
    exists k, x; (split; [reflexivity|]); (split; [exact Hx|]); (split; [exact Hpid|]);
    (split; [symmetry; exact Hd|]); (split; [exact Hlen|]); (split; [reflexivity|]);
    (split; [intros pid'; apply Hn; reflexivity|]); (split; [exact Hq|]);
    intros pid'; rewrite Hq, Hn by reflexivity;
    destruct (String.eqb pid pid'); lia.
Qed.

(** X4.  A successful [clearCart] releases, product by product, exactly
    the units the cart held, and leaves no record behind. *)
Theorem clearCart_releases_the_whole_cart (uid : string) (w : World) (c : Cart) :
  readCart uid w = Ok c ->
  result (clearCart uid w) = Ok tt ->
  (forall pid, net_reserved pid (events (clearCart uid w)) = - quantity_of pid (items c)) /\
  cache (final (clearCart uid w)) !! getCartKey uid = None.
Proof.
  intros Hc. rewrite (clearCart_run uid w c Hc).
  pose proof (releaseAll_ok_events (items c) w) as Hev.
  destruct (releaseAll (items c) w) as [[[]|e] w1 ev]; [|discriminate].
  simpl in Hev. rewrite (Hev eq_refl). cbn [result events final]. intros _. split.
  - intros pid. cbn [net_reserved]. rewrite net_reserved_app, net_reserved_releases.
    simpl. lia.
  - apply lookup_delete_eq.
Qed.

(** ** Every mutation, case by case *)

(** The case analysis of a mutation down to the outcomes it can have;
    [leaf] closes each of them. *)
Ltac mutation_cases m w leaf :=
  let uid := fresh "uid" in let pid := fresh "pid" in let dto := fresh "dto" in
  let sel := fresh "sel" in let pids := fresh "pids" in
  destruct m as [uid dto|uid pid dto|uid pid|uid pid sel|uid sel|uid|uid pids];
  cbn [perform user_of];
  [ unfold addToCart; run_prims; cbn;
    destruct (catalog w (dto_productId dto)) as [?p|]; cbn; [|leaf];
    rewrite getCart_run, readCart_probe; cbn;
    destruct (readCart uid w) as [?c|?e] eqn:?Hc; cbn; [|leaf];
    destruct (inv_reserveStock _ _ _) as [[] ?i]; cbn; [|leaf];
    destruct (findIndex _ _) as [?k|] eqn:?Hk; leaf
  | unfold updateCartItem;
    destruct (Z.leb_spec (upd_quantity dto) 0) as [?Hq|?Hq]; [leaf|];
    run_prims; rewrite getCart_run; cbn;
    destruct (readCart uid w) as [?c|?e] eqn:?Hc; cbn; [|leaf];
    destruct (findIndex _ _) as [?k|] eqn:?Hk; cbn; [|leaf];
    destruct (items _ !! _) as [?item|] eqn:?Hitem; cbn; [|leaf];
    destruct (0 <? _);
    [ destruct (inv_reserveStock _ _ _) as [[] ?i]; cbn; leaf
    | destruct (_ <? 0); cbn; [|leaf];
      destruct (inv_releaseReservation _ _ _) as [[?e|] ?i]; cbn; leaf ]
  | unfold removeFromCart; run_prims; rewrite getCart_run; cbn;
    destruct (readCart uid w) as [?c|?e] eqn:?Hc; cbn; [|leaf];
    destruct (findIndex _ _) as [?k|] eqn:?Hk; cbn; [|leaf];
    destruct (items _ !! _) as [?item|] eqn:?Hitem; cbn; [|leaf];
    destruct (inv_releaseReservation _ _ _) as [[?e|] ?i]; cbn; [leaf|];
    destruct (delete _ (items _)) eqn:?Hkept; cbn; leaf
  | unfold toggleSelectItem; run_prims; rewrite getCart_run; cbn;
    destruct (readCart uid w) as [?c|?e] eqn:?Hc; cbn; [|leaf];
    destruct (findIndex _ _) as [?k|] eqn:?Hk; cbn; leaf
  | unfold toggleSelectAll; run_prims; rewrite getCart_run; cbn;
    destruct (readCart uid w) as [?c|?e] eqn:?Hc; cbn; leaf
  | unfold removeSelectedItems; run_prims; rewrite getCart_run; cbn;
    destruct (readCart uid w) as [?c|?e] eqn:?Hc; cbn; [|leaf];
    destruct (List.filter _ _) eqn:?Hkept; cbn; leaf
  | unfold removeItemsByProductIds; run_prims; rewrite getCart_run; cbn;
    destruct (readCart uid w) as [?c|?e] eqn:?Hc; cbn; [|leaf];
    let kept := fresh "kept" in let Hkept := fresh "Hkept" in
    match goal with
    | |- context [List.filter ?p (items ?c)] =>
        remember (List.filter p (items c)) as kept eqn:Hkept
    end;
    destruct (items _) as [|?a ?l] eqn:?Hitems; cbn; [leaf|];
    destruct kept; cbn; leaf ].

Lemma perform_fails_clean (m : Mutation) (w : World) : fails_clean w (perform m w).
Proof.
  mutation_cases m w
    ltac:(intros e0 Hthrow u; first [discriminate Hthrow|idtac];
          cbn [final cache set_cache set_inventory];
          rewrite ?lookup_insert_ne by apply test_key_not_cart_key; reflexivity).
Qed.

Lemma perform_others_untouched (m : Mutation) (w : World) :
  others_untouched (user_of m) w (perform m w).
Proof.
  mutation_cases m w
    ltac:(intros u Hu;
          cbn [final cache set_cache set_inventory];
          rewrite ?lookup_insert_ne, ?lookup_delete_ne
            by first [apply test_key_not_cart_key
                     |intros Hx; apply getCartKey_inj in Hx; congruence];
          reflexivity).
Qed.

Lemma perform_writes_own_key (m : Mutation) (w : World) :
  writes_own_key (user_of m) w (perform m w).
Proof.
  mutation_cases m w
    ltac:(split;
          [ intros key v ttl Hin | intros key Hin ];
          cbn [events] in Hin;
          repeat (apply elem_of_cons in Hin as [Hin|Hin];
                  [ first [ discriminate Hin
                          | inversion Hin; subst;
                            first [ reflexivity
                                  | solve [left; repeat split; eauto]
                                  | solve [right; repeat split] ] ] | ]);
          inversion Hin).
Qed.

Lemma perform_reads_back (m : Mutation) (w : World) :
  reads_back (user_of m) (perform m w).
Proof.
  mutation_cases m w
    ltac:(intros c' E; cbn [result] in E;
          first [ discriminate E
                | injection E as <-;
                  unfold readCart; cbn [final cache set_cache set_inventory];
                  rewrite ?lookup_insert_eq, ?lookup_delete_eq;
                  eexists; split; [reflexivity|]; repeat split ]).
Qed.

(** ** One line per product *)

Lemma carts_unique_insert_cart (m : gmap string entry) (key : string) (c : Cart) :
  carts_unique m -> NoDup (productId <$> items c) -> carts_unique (<[key := ECart c]> m).
Proof.
  intros H Hc k c' Hk.
  destruct (decide (key = k)) as [->|Hne].
  - rewrite lookup_insert_eq in Hk. injection Hk as <-. exact Hc.
  - rewrite lookup_insert_ne in Hk by exact Hne. exact (H k c' Hk).
Qed.

Lemma carts_unique_insert_text (m : gmap string entry) (key s : string) :
  carts_unique m -> carts_unique (<[key := EText s]> m).
Proof.
  intros H k c' Hk.
  destruct (decide (key = k)) as [->|Hne].
  - rewrite lookup_insert_eq in Hk. discriminate.
  - rewrite lookup_insert_ne in Hk by exact Hne. exact (H k c' Hk).
Qed.

Lemma carts_unique_delete (m : gmap string entry) (key : string) :
  carts_unique m -> carts_unique (delete key m).
Proof.
  intros H k c' Hk.
  destruct (decide (key = k)) as [->|Hne].
  - rewrite lookup_delete_eq in Hk. discriminate.
  - rewrite lookup_delete_ne in Hk by exact Hne. exact (H k c' Hk).
Qed.

Lemma readCart_unique (uid : string) (w : World) (c : Cart) :
  one_line_per_product w -> readCart uid w = Ok c -> NoDup (productId <$> items c).
Proof.
  unfold readCart. intros H.
  destruct (cache w !! getCartKey uid) as [[c'|s]|] eqn:E; intros [= <-].
  - exact (H _ _ E).
  - constructor.
Qed.

Lemma productIds_alter (f : CartItem -> CartItem) (k : nat) (l : list CartItem) :
  (forall item, productId (f item) = productId item) ->
  productId <$> alter f k l = productId <$> l.
Proof.
  intros Hf. revert k. induction l as [|a l IH]; intros [|k]; simpl; auto.
  - rewrite Hf. reflexivity.
  - f_equal. apply IH.
Qed.

Lemma productIds_setSelected (sel : bool) (l : list CartItem) :
  productId <$> map (setSelected sel) l = productId <$> l.
Proof. induction l as [|a l IH]; simpl; [reflexivity|]. f_equal. exact IH. Qed.

Lemma filter_sublist {A} (p : A -> bool) (l : list A) : List.filter p l `sublist_of` l.
Proof.
  induction l as [|a l IH]; simpl; [constructor|].
  destruct (p a); [apply sublist_skip|apply sublist_cons]; exact IH.
Qed.

Lemma unique_sublist (l' l : list CartItem) :
  l' `sublist_of` l -> NoDup (productId <$> l) -> NoDup (productId <$> l').
Proof.
  intros Hs H. apply (sublist_NoDup _ _ H). apply fmap_sublist. exact Hs.
Qed.

Lemma unique_alter (f : CartItem -> CartItem) (k : nat) (l : list CartItem) :
  (forall item, productId (f item) = productId item) ->
  NoDup (productId <$> l) -> NoDup (productId <$> alter f k l).
Proof. intros Hf H. rewrite productIds_alter by exact Hf. exact H. Qed.

Lemma unique_append (pid : string) (fp : Q) (p : Product) (qty now : Z)
      (l : list CartItem) :
  findIndex (hasProductId pid) l = None ->
  NoDup (productId <$> l) -> NoDup (productId <$> l ++ [newItem pid fp p qty now]).
Proof.
  intros Hk H. rewrite fmap_app. apply NoDup_app. split; [exact H|]. split.
  - intros x Hx Hx'. simpl in Hx'. apply list_elem_of_singleton in Hx'. subst x.
    apply list_elem_of_fmap in Hx as (item & Hid & Hin).
    assert (Hfalse : forall l', findIndex (hasProductId pid) l' = None ->
                                item ∈ l' -> hasProductId pid item = false).
    { clear. intros l'. induction l' as [|a l' IH]; simpl; intros Hn Hin.
      - inversion Hin.
      - destruct (hasProductId pid a) eqn:Ha; [discriminate|].
        destruct (findIndex (hasProductId pid) l'); [discriminate|].
        apply elem_of_cons in Hin as [->|Hin]; auto. }
    pose proof (Hfalse l Hk Hin) as Hf. unfold hasProductId in Hf.
    rewrite <- Hid, String.eqb_refl in Hf. discriminate.
  - simpl. apply NoDup_singleton.
Qed.

Ltac undo_cases :=
  repeat match goal with
         | H : List.filter _ _ = _ :: _ |- _ => rewrite <- H; clear H
         | H : _ :: _ = List.filter _ _ |- _ => rewrite H; clear H
         | H : delete _ _ = _ :: _ |- _ => rewrite <- H; clear H
         end;
  repeat match goal with
         | H : items _ = _ :: _ |- _ => rewrite <- H; clear H
         end.

(** X9.  At most one line per product: a store in which no cart has two
    lines for the same product stays so under every mutation. *)
Theorem one_line_per_product_preserved (m : Mutation) (w : World) :
  one_line_per_product w -> one_line_per_product (final (perform m w)).
Proof.
  intros Hw.
  mutation_cases m w
    ltac:(unfold one_line_per_product in *; cbn [final cache set_cache set_inventory];
          repeat first
            [ exact Hw
            | apply carts_unique_insert_text
            | apply carts_unique_delete
            | apply carts_unique_insert_cart ];
          cbn [items recalculate emptyCart];
          undo_cases;
          try match goal with
              | Hc : readCart _ _ = Ok ?c |- _ =>
                  pose proof (readCart_unique _ _ _ Hw Hc)
              end;
          first [ apply unique_alter; [reflexivity|assumption]
                | apply unique_append; assumption
                | rewrite productIds_setSelected; assumption
                | eapply unique_sublist; [|eassumption];
                  first [apply filter_sublist | apply sublist_delete] ]).
Qed.

(** ** Quantities stay positive *)

Lemma carts_positive_insert_cart (m : gmap string entry) (key : string) (c : Cart) :
  carts_positive m -> Forall (fun item => 0 < quantity item) (items c) ->
  carts_positive (<[key := ECart c]> m).
Proof.
  intros H Hc k c' Hk.
  destruct (decide (key = k)) as [->|Hne].
  - rewrite lookup_insert_eq in Hk. injection Hk as <-. exact Hc.
  - rewrite lookup_insert_ne in Hk by exact Hne. exact (H k c' Hk).
Qed.

Lemma carts_positive_insert_text (m : gmap string entry) (key s : string) :
  carts_positive m -> carts_positive (<[key := EText s]> m).
Proof.
  intros H k c' Hk.
  destruct (decide (key = k)) as [->|Hne].
  - rewrite lookup_insert_eq in Hk. discriminate.
  - rewrite lookup_insert_ne in Hk by exact Hne. exact (H k c' Hk).
Qed.

Lemma carts_positive_delete (m : gmap string entry) (key : string) :
  carts_positive m -> carts_positive (delete key m).
Proof.
  intros H k c' Hk.
  destruct (decide (key = k)) as [->|Hne].
  - rewrite lookup_delete_eq in Hk. discriminate.
  - rewrite lookup_delete_ne in Hk by exact Hne. exact (H k c' Hk).
Qed.

Lemma readCart_positive (uid : string) (w : World) (c : Cart) :
  quantities_positive w -> readCart uid w = Ok c ->
  Forall (fun item => 0 < quantity item) (items c).
Proof.
  unfold readCart. intros H.
  destruct (cache w !! getCartKey uid) as [[c'|s]|] eqn:E; intros [= <-].
  - exact (H _ _ E).
  - constructor.
Qed.

Lemma positive_sublist (l' l : list CartItem) :
  l' `sublist_of` l ->
  Forall (fun item => 0 < quantity item) l -> Forall (fun item => 0 < quantity item) l'.
Proof.
  intros Hs H. apply Forall_forall. intros x Hx.
  rewrite Forall_forall in H. apply H. exact (elem_of_sublist _ _ _ Hx Hs).
Qed.

Lemma positive_setSelected (sel : bool) (l : list CartItem) :
  Forall (fun item => 0 < quantity item) l ->
  Forall (fun item => 0 < quantity item) (map (setSelected sel) l).
Proof. induction 1; simpl; constructor; auto. Qed.

(** X10.  Quantities stay positive: when the quantity of an [addToCart]
    request is at least one, as its DTO demands, a store in which every
    line holds at least one unit stays so under every mutation;
    [updateCartItem] needs no such promise, it checks the quantity itself. *)
Theorem quantities_stay_positive (m : Mutation) (w : World) :
  validated m ->
  quantities_positive w -> quantities_positive (final (perform m w)).
Proof.
  intros Hv Hw.
  mutation_cases m w
    ltac:(unfold quantities_positive in *; cbn [validated] in Hv;
          cbn [final cache set_cache set_inventory];
          repeat first
            [ exact Hw
            | apply carts_positive_insert_text
            | apply carts_positive_delete
            | apply carts_positive_insert_cart ];
          cbn [items recalculate emptyCart];
          undo_cases;
          try match goal with
              | Hc : readCart _ _ = Ok ?c |- _ =>
                  pose proof (readCart_positive _ _ _ Hw Hc)
              end;
          first [ apply Forall_alter; [assumption|];
                  intros x _ Hx; cbn [quantity readded setQuantity setSelected]; lia
                | apply Forall_app_2; [assumption|];
                  repeat constructor; cbn [quantity newItem]; lia
                | apply positive_setSelected; assumption
                | eapply positive_sublist; [|eassumption];
                  first [apply filter_sublist | apply sublist_delete] ]).
Qed.

(** ** What a mutation may touch *)

(** X5.  A mutation that throws has not changed any stored cart. *)
Theorem failed_mutation_leaves_carts (m : Mutation) (w : World) (e : Exn) :
  result (perform m w) = Throw e ->
  forall u, cache (final (perform m w)) !! getCartKey u = cache w !! getCartKey u.
Proof. exact (perform_fails_clean m w e). Qed.

(** X6.  A mutation for one user leaves the stored cart of every other
    user as it was. *)
Theorem mutation_leaves_other_users (m : Mutation) (w : World) (u : string) :
  u <> user_of m ->
  cache (final (perform m w)) !! getCartKey u = cache w !! getCartKey u.
Proof. exact (perform_others_untouched m w u). Qed.

(** X7.  The cache writes of a mutation: a cart under the key of its user
    with a time to live of 86400000 ms, or the probe string under the
    probe key for 10000 ms; and the only key a mutation deletes is the
    cart key of its user. *)
Theorem mutation_writes_only_own_key (m : Mutation) (w : World) :
  (forall key v ttl, CacheSet key v ttl ∈ events (perform m w) ->
     (key = getCartKey (user_of m) /\ ttl = 86400000 /\ exists c, v = ECart c) \/
     (key = probeKey w /\ ttl = 10000 /\ v = EText "test")) /\
  (forall key, CacheDel key ∈ events (perform m w) -> key = getCartKey (user_of m)).
Proof. exact (perform_writes_own_key m w). Qed.

(** X8.  Read your writes: after a mutation that returned a cart, [getCart]
    for the same user yields the same items and the same totals, also when
    the mutation emptied the cart and deleted the record. *)
Theorem mutation_result_is_read_back (m : Mutation) (w : World) (c' : Cart) :
  result (perform m w) = Ok c' ->
  exists c'', result (getCart (user_of m) (final (perform m w))) = Ok c'' /\
              items c'' = items c' /\ totalItems c'' = totalItems c' /\
              totalPrice c'' = totalPrice c'.
Proof.
  intros Hres. destruct (perform_reads_back m w c' Hres) as (c'' & Hread & Hsame).
  exists c''. rewrite getCart_run. split; [exact Hread|exact Hsame].
Qed.

(** ** The line that a method works on *)

(** The index that [findIndex] returns splits the list at the first
    element that passes the test. *)
Lemma findIndex_split {A} (p : A -> bool) (l : list A) (k : nat) :
  findIndex p l = Some k ->
  exists l1 x l2, l = l1 ++ x :: l2 /\ length l1 = k /\ p x = true /\
                  Forall (fun y => p y = false) l1.
Proof.
  revert k. induction l as [|a l IH]; intros k; simpl; [discriminate|].
  destruct (p a) eqn:Ha.
  - intros [= <-]. exists [], a, l. repeat split; auto.
  - destruct (findIndex p l) as [j|]; simpl; [|discriminate].
    intros [= <-]. destruct (IH j eq_refl) as (l1 & x & l2 & -> & Hlen & Hx & Hl1).
    exists (a :: l1), x, l2. simpl. repeat split; auto.
Qed.

Lemma alter_middle {A} (f : A -> A) (l1 l2 : list A) (x : A) :
  alter f (length l1) (l1 ++ x :: l2) = l1 ++ f x :: l2.
Proof.
  induction l1 as [|a l1 IH]; simpl; [reflexivity|].
  f_equal. exact IH.
Qed.

Lemma delete_middle {A} (l1 l2 : list A) (x : A) :
  delete (length l1) (l1 ++ x :: l2) = l1 ++ l2.
Proof.
  induction l1 as [|a l1 IH]; simpl; [reflexivity|].
  f_equal. exact IH.
Qed.

Lemma lookup_middle {A} (l1 l2 : list A) (x : A) :
  (l1 ++ x :: l2) !! length l1 = Some x.
Proof. induction l1 as [|a l1 IH]; simpl; auto. Qed.

(** The first line of a product in a cart. *)
Lemma first_line (pid : string) (l : list CartItem) (k : nat) :
  findIndex (hasProductId pid) l = Some k ->
  exists l1 item l2,
    l = l1 ++ item :: l2 /\ length l1 = k /\ productId item = pid /\
    Forall (fun x => productId x <> pid) l1.
Proof.
  intros Hk. destruct (findIndex_split _ _ _ Hk) as (l1 & x & l2 & Hl & Hlen & Hx & Hl1).
  exists l1, x, l2. repeat split; auto.
  - apply hasProductId_true. exact Hx.
  - eapply Forall_impl; [exact Hl1|]. intros y Hy Heq.
    apply hasProductId_true in Heq. congruence.
Qed.

(** X11.  A successful [updateCartItem] changes the quantity of the first
    line of the product and nothing else: the lines before and after it,
    and the name, the three price fields, the date and the flag of the
    line itself stay; the catalogue is not asked, so the line is not
    re-priced; and the changed cart is the one stored. *)
Theorem updateCartItem_changes_one_quantity
        (uid pid : string) (dto : UpdateCartItemDto) (w : World) (c c' : Cart) :
  readCart uid w = Ok c ->
  result (updateCartItem uid pid dto w) = Ok c' ->
  (exists l1 item l2,
     items c = l1 ++ item :: l2 /\ productId item = pid /\
     Forall (fun x => productId x <> pid) l1 /\
     items c' = l1 ++ mkCartItem (productId item) (productName item) (price item)
                                 (originalPrice item) (salePercentage item)
                                 (upd_quantity dto) (addedAt item) (selected item)
                   :: l2) /\
  (forall p, FindOne p ∉ events (updateCartItem uid pid dto w)) /\
  cache (final (updateCartItem uid pid dto w)) !! getCartKey uid = Some (ECart c').
Proof.
  intros Hc.
  destruct (Z.leb_spec (upd_quantity dto) 0) as [Hle|Hpos].
  { unfold updateCartItem. destruct (Z.leb_spec (upd_quantity dto) 0); [discriminate|lia]. }
  destruct (findIndex (hasProductId pid) (items c)) as [k|] eqn:Hk.
  2:{ destruct (missing_line_run uid pid w c Hc Hk) as (Hu & _).
      rewrite (Hu dto Hpos). discriminate. }
  destruct (first_line pid (items c) k Hk) as (l1 & x & l2 & Hl & Hlen & Hx & Hl1).
  assert (Hlook : items c !! k = Some x).
  { rewrite Hl, <- Hlen. apply lookup_middle. }
  rewrite (updateCartItem_run uid pid dto w c k x Hpos Hc Hk Hlook). cbv zeta.
  assert (Hitems : alter (setQuantity (upd_quantity dto)) k (items c)
                   = l1 ++ setQuantity (upd_quantity dto) x :: l2).
  { rewrite Hl, <- Hlen. apply alter_middle. }
  assert (Hno : forall (evs : list event) (p : string),
             (forall e, e ∈ evs -> forall q, e <> FindOne q) -> FindOne p ∉ evs).
  { intros evs p H Hin. exact (H _ Hin p eq_refl). }
  destruct (0 <? upd_quantity dto - quantity x).
  - destruct (inv_reserveStock _ _ _) as [[] i]; [|discriminate].
    cbn [result events final cache]. intros [= <-]. cbn [items recalculate].
    split; [exists l1, x, l2; repeat split; auto|].
    split; [|apply lookup_insert_eq].
    intros p. apply Hno. intros e He q.
    repeat (apply elem_of_cons in He as [->|He]; [discriminate|]). inversion He.
  - destruct (upd_quantity dto - quantity x <? 0).
    + destruct (inv_releaseReservation _ _ _) as [[e|] i]; [discriminate|].
      cbn [result events final cache]. intros [= <-]. cbn [items recalculate].
      split; [exists l1, x, l2; repeat split; auto|].
      split; [|apply lookup_insert_eq].
      intros p. apply Hno. intros e He q.
      repeat (apply elem_of_cons in He as [->|He]; [discriminate|]). inversion He.
    + cbn [result events final cache]. intros [= <-]. cbn [items recalculate].
      split; [exists l1, x, l2; repeat split; auto|].
      split; [|apply lookup_insert_eq].
      intros p. apply Hno. intros e He q.
      repeat (apply elem_of_cons in He as [->|He]; [discriminate|]). inversion He.
Qed.

(** X12.  A successful [removeFromCart] takes out the first line of the
    product and keeps the other lines in their order; its only inventory
    call releases the whole quantity of that line; the record is deleted
    when no line is left and holds the returned cart otherwise. *)
Theorem removeFromCart_removes_first_line
        (uid pid : string) (w : World) (c c' : Cart) :
  readCart uid w = Ok c ->
  result (removeFromCart uid pid w) = Ok c' ->
  exists l1 item l2,
    items c = l1 ++ item :: l2 /\ productId item = pid /\
    Forall (fun x => productId x <> pid) l1 /\
    items c' = l1 ++ l2 /\
    inventory_calls (events (removeFromCart uid pid w))
    = [ReleaseReservation pid (quantity item)] /\
    cache (final (removeFromCart uid pid w)) !! getCartKey uid
    = match l1 ++ l2 with [] => None | _ :: _ => Some (ECart c') end.
Proof.
  intros Hc.
  destruct (findIndex (hasProductId pid) (items c)) as [k|] eqn:Hk.
  2:{ destruct (missing_line_run uid pid w c Hc Hk) as (_ & Hr & _).
      rewrite Hr. discriminate. }
  destruct (first_line pid (items c) k Hk) as (l1 & x & l2 & Hl & Hlen & Hx & Hl1).
  assert (Hlook : items c !! k = Some x).
  { rewrite Hl, <- Hlen. apply lookup_middle. }
  rewrite (removeFromCart_run uid pid w c k x Hc Hk Hlook). cbv zeta.
  assert (Hitems : delete k (items c) = l1 ++ l2).
  { rewrite Hl, <- Hlen. apply delete_middle. }
  rewrite Hitems, Hx.
  destruct (inv_releaseReservation _ _ _) as [[e|] i]; [discriminate|].
  exists l1, x, l2.
  destruct (l1 ++ l2) as [|a l] eqn:Hkept;
    cbn [result events final cache] in *;
    match goal with H : Ok _ = Ok _ |- _ => injection H as <- end;
    cbn [items recalculate]; repeat split; auto;
    first [apply lookup_delete_eq | apply lookup_insert_eq].
Qed.

(** X13.  [toggleSelectItem] on a product of the cart sets the flag of the
    first line of the product and changes nothing else: no other line, no
    other field, neither total; it calls the inventory not at all. *)
Theorem toggleSelectItem_flags_first_line
        (uid pid : string) (sel : bool) (w : World) (c c' : Cart) :
  readCart uid w = Ok c ->
  result (toggleSelectItem uid pid sel w) = Ok c' ->
  (exists l1 item l2,
     items c = l1 ++ item :: l2 /\ productId item = pid /\
     Forall (fun x => productId x <> pid) l1 /\
     items c' = l1 ++ mkCartItem (productId item) (productName item) (price item)
                                 (originalPrice item) (salePercentage item)
                                 (quantity item) (addedAt item) (Some sel)
                   :: l2) /\
  totalItems c' = totalItems c /\ totalPrice c' = totalPrice c /\
  inventory_calls (events (toggleSelectItem uid pid sel w)) = [] /\
  inventory (final (toggleSelectItem uid pid sel w)) = inventory w /\
  cache (final (toggleSelectItem uid pid sel w)) !! getCartKey uid = Some (ECart c').
Proof.
  intros Hc.
  destruct (findIndex (hasProductId pid) (items c)) as [k|] eqn:Hk.
  2:{ destruct (missing_line_run uid pid w c Hc Hk) as (_ & _ & Ht).
      rewrite (Ht sel). discriminate. }
  destruct (first_line pid (items c) k Hk) as (l1 & x & l2 & Hl & Hlen & Hx & Hl1).
  rewrite (toggleSelectItem_run uid pid sel w c k Hc Hk). cbv zeta.
  cbn [result events final cache set_cache inventory]. intros [= <-].
  cbn [items totalItems totalPrice].
  split.
  - exists l1, x, l2. repeat split; auto.
    rewrite Hl, <- Hlen. exact (alter_middle (setSelected sel) l1 l2 x).
  - repeat split. apply lookup_insert_eq.
Qed.

(** ** Selecting everything, and the clean-up after the checkout *)

Lemma isSelected_setSelected (sel : bool) (item : CartItem) :
  isSelected (setSelected sel item) = sel.
Proof. destruct sel; reflexivity. Qed.

Lemma filter_all {A} (p : A -> bool) (l : list A) :
  (forall x, p x = true) -> List.filter p l = l.
Proof. intros H. induction l as [|a l IH]; simpl; [reflexivity|]. rewrite H, IH. reflexivity. Qed.

Lemma filter_none {A} (p : A -> bool) (l : list A) :
  (forall x, p x = false) -> List.filter p l = [].
Proof. intros H. induction l as [|a l IH]; simpl; [reflexivity|]. rewrite H. exact IH. Qed.

Lemma filter_map {A B} (p : B -> bool) (f : A -> B) (l : list A) :
  List.filter p (map f l) = map f (List.filter (fun x => p (f x)) l).
Proof.
  induction l as [|a l IH]; simpl; [reflexivity|].
  destruct (p (f a)); simpl; rewrite IH; reflexivity.
Qed.

Lemma flagged_setSelected (sel : bool) (l : list CartItem) :
  Forall (fun item => selected item = Some sel) (map (setSelected sel) l).
Proof. induction l as [|a l IH]; simpl; constructor; auto. Qed.

Lemma projection_setSelected {B} (g : CartItem -> B) (sel : bool) (l : list CartItem) :
  (forall item, g (setSelected sel item) = g item) ->
  g <$> map (setSelected sel) l = g <$> l.
Proof.
  intros Hg. induction l as [|a l IH]; simpl; [reflexivity|].
  rewrite Hg. f_equal. exact IH.
Qed.

(** X14.  [toggleSelectAll] gives every line the requested flag and
    changes no product, quantity or price; afterwards [getSelectedItems]
    returns every line (flag true) or none (flag false); the inventory is
    not called. *)
Theorem toggleSelectAll_flags_every_line
        (uid : string) (sel : bool) (w : World) (c : Cart) :
  readCart uid w = Ok c ->
  exists c',
    result (toggleSelectAll uid sel w) = Ok c' /\
    Forall (fun item => selected item = Some sel) (items c') /\
    productId <$> items c' = productId <$> items c /\
    quantity <$> items c' = quantity <$> items c /\
    price <$> items c' = price <$> items c /\
    getSelectedItems c' = (if sel then items c' else []) /\
    inventory_calls (events (toggleSelectAll uid sel w)) = [] /\
    cache (final (toggleSelectAll uid sel w)) !! getCartKey uid = Some (ECart c').
Proof.
  intros Hc. rewrite (toggleSelectAll_run uid sel w c Hc). cbv zeta.
  eexists. split; [reflexivity|]. cbn [items result events final cache set_cache].
  split; [apply flagged_setSelected|].
  split; [apply projection_setSelected; reflexivity|].
  split; [apply projection_setSelected; reflexivity|].
  split; [apply projection_setSelected; reflexivity|].
  split; [|split; [reflexivity|apply lookup_insert_eq]].
  unfold getSelectedItems. cbn [items]. destruct sel.
  - rewrite filter_map. rewrite filter_all; [reflexivity|].
    intros x. apply isSelected_setSelected.
  - rewrite filter_map. rewrite filter_none; [reflexivity|].
    intros x. apply isSelected_setSelected.
Qed.

(** X15.  Selecting every line and then removing the selected lines
    empties the cart and deletes the record, and in both calls together
    the inventory is not called once: the units the cart held are not
    released. *)
Theorem select_all_then_remove_selected (uid : string) (w : World) (c : Cart) :
  readCart uid w = Ok c ->
  let o1 := toggleSelectAll uid true w in
  let o2 := removeSelectedItems uid (final o1) in
  exists c2,
    result o2 = Ok c2 /\ items c2 = [] /\
    cache (final o2) !! getCartKey uid = None /\
    inventory_calls (events o1 ++ events o2) = [] /\
    inventory (final o2) = inventory w.
Proof.
  intros Hc o1 o2. subst o1 o2.
  rewrite (toggleSelectAll_run uid true w c Hc). cbv zeta. cbn [final events].
  set (c1 := mkCart (userId c) (map (setSelected true) (items c))
                    (totalItems c) (totalPrice c) (clock w)).
  assert (Hread : readCart uid (set_cache w (<[getCartKey uid := ECart c1]> (cache w)))
                  = Ok c1).
  { unfold readCart. cbn [cache set_cache]. rewrite lookup_insert_eq. reflexivity. }
  rewrite (removeSelectedItems_run uid _ c1 Hread). cbv zeta.
  assert (Hnone : List.filter (fun item => negb (isSelected item)) (items c1) = []).
  { subst c1. cbn [items]. rewrite filter_map, filter_none; [reflexivity|].
    intros x. rewrite isSelected_setSelected. reflexivity. }
  rewrite Hnone. eexists. split; [reflexivity|].
  cbn [items recalculate final cache set_cache events inventory].
  repeat split. apply lookup_delete_eq.
Qed.

(** ** Adding and taking back *)

(** X16.  Adding a product that is not in the cart and removing it again
    gives back the lines the cart had, and the inventory sees exactly the
    reservation of the added quantity followed by the release of the same
    quantity. *)
Theorem add_then_remove_restores_lines
        (uid : string) (dto : AddToCartDto) (w : World) (p : Product) (c : Cart)
        (i i' : inv_state) :
  readCart uid w = Ok c ->
  findIndex (hasProductId (dto_productId dto)) (items c) = None ->
  catalog w (dto_productId dto) = Some p ->
  inv_reserveStock (dto_productId dto) (dto_quantity dto) (inventory w) = (true, i) ->
  inv_releaseReservation (dto_productId dto) (dto_quantity dto) i = (None, i') ->
  let o1 := addToCart uid dto w in
  let o2 := removeFromCart uid (dto_productId dto) (final o1) in
  exists c2,
    result o2 = Ok c2 /\ items c2 = items c /\
    inventory_calls (events o1 ++ events o2)
    = [ReserveStock (dto_productId dto) (dto_quantity dto);
       ReleaseReservation (dto_productId dto) (dto_quantity dto)] /\
    readCart uid (final o2)
    = match items c with [] => Ok (emptyCart uid (clock w)) | _ :: _ => Ok c2 end.
Proof.
  intros Hc Hk Hp Hr Hrel o1 o2. subst o1 o2.
  rewrite (addToCart_reserved uid dto w p c i Hp Hc Hr). cbv zeta. rewrite Hk.
  cbn [final events].
  set (fp := calculateFinalPrice (prod_sellingPrice p) (prod_salePercentage p)).
  set (x := newItem (dto_productId dto) fp p (dto_quantity dto) (clock w)).
  set (c1 := recalculate c (items c ++ [x]) (clock w)).
  set (w1 := mkWorld (<[getCartKey uid := ECart c1]> (<[probeKey w := EText "test"]> (cache w)))
                     (catalog w) i (clock w)).
  assert (Hread : readCart uid w1 = Ok c1).
  { unfold readCart. subst w1. cbn [cache]. rewrite lookup_insert_eq. reflexivity. }
  assert (Hfind : findIndex (hasProductId (dto_productId dto)) (items c1)
                  = Some (length (items c))).
  { subst c1. cbn [items recalculate]. apply findIndex_app_new; [exact Hk|].
    subst x. unfold hasProductId, newItem. cbn [productId]. apply String.eqb_refl. }
  assert (Hlook : items c1 !! length (items c) = Some x).
  { subst c1. cbn [items recalculate]. apply lookup_middle. }
  rewrite (removeFromCart_run uid (dto_productId dto) w1 c1 _ x Hread Hfind Hlook).
  cbv zeta.
  assert (Hdel : delete (length (items c)) (items c1) = items c).
  { subst c1. cbn [items recalculate]. apply delete_app_last. }
  rewrite Hdel.
  change (productId x) with (dto_productId dto).
  change (quantity x) with (dto_quantity dto).
  change (inventory w1) with i. rewrite Hrel.
  destruct (items c) as [|a l] eqn:Hitems;
    (eexists; split; [reflexivity|]); cbn [items recalculate];
    (split; [reflexivity|]); (split; [reflexivity|]);
    unfold readCart; cbn [final cache]; subst w1; cbn [cache clock];
    rewrite ?lookup_delete_eq, ?lookup_insert_eq; reflexivity.
Qed.

(** ** Removing by product ids *)



(** ** A product that is not in the cart *)

Lemma findIndex_none {A} (p : A -> bool) (l : list A) :
  Forall (fun x => p x = false) l -> findIndex p l = None.
Proof.
  induction 1 as [|a l Ha _ IH]; simpl; [reflexivity|].
  rewrite Ha, IH. reflexivity.
Qed.

(** X18.  For a product that has no line in the cart, [updateCartItem]
    (with a positive quantity), [removeFromCart] and [toggleSelectItem]
    throw NotFound after the one read of the cart: nothing is written,
    nothing is asked from the inventory, the world is as before. *)
Theorem missing_line_is_not_found (uid pid : string) (w : World) (c : Cart) :
  readCart uid w = Ok c ->
  Forall (fun item => productId item <> pid) (items c) ->
  (forall dto, 0 < upd_quantity dto ->
     updateCartItem uid pid dto w =
     mkOutcome (Throw (NotFoundException
                         ("Product with ID " +:+ pid +:+ " not found in cart")))
               w [CacheGet (getCartKey uid)]) /\
  removeFromCart uid pid w =
  mkOutcome (Throw (NotFoundException
                      ("Product with ID " +:+ pid +:+ " not found in cart")))
            w [CacheGet (getCartKey uid)] /\
  (forall sel, toggleSelectItem uid pid sel w =
     mkOutcome (Throw (NotFoundException "Product not found in cart"))
               w [CacheGet (getCartKey uid)]).
Proof.
  intros Hc Hall. apply (missing_line_run uid pid w c Hc).
  apply findIndex_none. eapply Forall_impl; [exact Hall|].
  intros x Hx. destruct (hasProductId pid x) eqn:E; [|reflexivity].
  apply hasProductId_true in E. contradiction.
Qed.

(** ** Counting, and the unknown product *)

(** X19.  In a store with consistent totals [getCartItemCount] returns the
    sum of the quantities of the user's lines, zero for a user without a
    record, after one read and without any write. *)
Theorem getCartItemCount_counts_units (uid : string) (w : World) (c : Cart) :
  store_ok w ->
  readCart uid w = Ok c ->
  getCartItemCount uid w =
  mkOutcome (Ok (total_quantity (items c))) w [CacheGet (getCartKey uid)].
Proof.
  intros Hw Hc. unfold getCartItemCount, bind, ret. rewrite getCart_run, Hc.
  destruct (readCart_totals_ok uid w c Hw Hc) as [Hq _]. rewrite Hq. reflexivity.
Qed.

(** X20.  [addToCart] for a product that the catalogue does not know throws
    NotFound before it reads the cart or calls the inventory: nothing is
    reserved and no stored cart changes; only the connection probe has
    been written. *)
Theorem addToCart_unknown_product_reserves_nothing
        (uid : string) (dto : AddToCartDto) (w : World) :
  catalog w (dto_productId dto) = None ->
  result (addToCart uid dto w)
  = Throw (NotFoundException ("Product with ID " +:+ dto_productId dto +:+ " not found")) /\
  inventory_calls (events (addToCart uid dto w)) = [] /\
  inventory (final (addToCart uid dto w)) = inventory w /\
  (forall u, CacheGet (getCartKey u) ∉ events (addToCart uid dto w)) /\
  (forall u, cache (final (addToCart uid dto w)) !! getCartKey u = cache w !! getCartKey u) /\
  cache (final (addToCart uid dto w)) !! probeKey w = Some (EText "test").
Proof.
  intros Hp. rewrite (addToCart_unknown_product uid dto w Hp).
  cbn [result events final cache set_cache inventory]. repeat split.
  - intros u Hin. unfold probe_calls in Hin. simpl in Hin.
    apply elem_of_cons in Hin as [Heq|Hin]; [discriminate|].
    apply elem_of_cons in Hin as [Heq|Hin]; [discriminate Heq|].
    apply elem_of_cons in Hin as [Heq|Hin]; [discriminate|]. inversion Hin.
  - intros u. apply lookup_insert_ne, test_key_not_cart_key.
  - apply lookup_insert_eq.
Qed.

(** ** The discounted price *)

(** X22.  The discount is not capped: for a sale percentage above zero,
    when the number that the three operations give is below minus one
    half, the computed price is negative. *)
Theorem calculateFinalPrice_uncapped (sp pct v : Q) :
  number_ltb number_zero (number_of_Q pct) = true ->
  number_value
    (number_sub (number_of_Q sp)
       (number_div (number_mul (number_of_Q sp) (number_of_Q pct))
                   (number_of_Q 100))) = Some v ->
  (v < - (1 # 2))%Q ->
  (calculateFinalPrice sp (Some pct) < 0)%Q.
Proof.
  intros Hpos Hv Hneg. rewrite (calculateFinalPrice_on_sale sp pct v Hpos Hv).
  destruct (Math_round_nearest v) as [_ Hhi]. lra.
Qed.

End Further.

(** * The further properties on sample data *)

Lemma addToCart_reserves_what_it_adds_witness :
  exists c',
    result (addToCart "u1" (mkAddToCartDto "P1" 1) world_one_left) = Ok c' /\
    quantity_of "P1" (items c') = quantity_of "P1" (items cart_five) + 1.
Proof.
  destruct (result (addToCart "u1" (mkAddToCartDto "P1" 1) world_one_left))
    as [c'|e] eqn:Hres; [|vm_compute in Hres; discriminate Hres].
  exists c'. split; [reflexivity|].
  destruct (addToCart_reserves_what_it_adds
              "u1" (mkAddToCartDto "P1" 1) world_one_left cart_five c') with (pid := "P1")
    as [Hq Hnet].
  - vm_compute. reflexivity.
  - exact Hres.
  - rewrite Hq, Hnet. reflexivity.
Defined.

Lemma updateCartItem_reserves_the_difference_witness :
  exists c',
    result (updateCartItem "u1" "P1" (mkUpdateCartItemDto 3) world_one_left) = Ok c' /\
    items c' = [sample_item "P1" 3 (Some true)] /\
    inventory_calls
      (events (updateCartItem "u1" "P1" (mkUpdateCartItemDto 3) world_one_left))
    = [ReleaseReservation "P1" 2] /\
    quantity_of "P1" (items c') = quantity_of "P1" (items cart_five) - 2.
Proof.
  destruct (result (updateCartItem "u1" "P1" (mkUpdateCartItemDto 3) world_one_left))
    as [c'|e] eqn:Hres; [|vm_compute in Hres; discriminate Hres].
  exists c'. split; [reflexivity|].
  destruct (updateCartItem_reserves_the_difference
              "u1" "P1" (mkUpdateCartItemDto 3) world_one_left cart_five c')
    as (k & item & Hk & Hitem & _ & Hitems & _ & Hdown & _ & _ & Hq & _).
  - vm_compute. reflexivity.
  - exact Hres.
  - injection Hk as <-. injection Hitem as <-.
    split; [rewrite Hitems; reflexivity|].
    split; [apply Hdown; simpl; lia|].
    rewrite (Hq "P1"). reflexivity.
Defined.

Lemma removeFromCart_releases_what_it_removes_witness :
  exists c',
    result (removeFromCart "u1" "P1" world_one_left) = Ok c' /\
    items c' = [] /\
    inventory_calls (events (removeFromCart "u1" "P1" world_one_left))
    = [ReleaseReservation "P1" 5] /\
    quantity_of "P1" (items c') = quantity_of "P1" (items cart_five) - 5.
Proof.
  destruct (result (removeFromCart "u1" "P1" world_one_left))
    as [c'|e] eqn:Hres; [|vm_compute in Hres; discriminate Hres].
  exists c'. split; [reflexivity|].
  destruct (removeFromCart_releases_what_it_removes
              "u1" "P1" world_one_left cart_five c')
    as (k & item & Hk & Hitem & _ & Hitems & _ & Hcalls & _ & Hq & _).
  - vm_compute. reflexivity.
  - exact Hres.
  - injection Hk as <-. injection Hitem as <-.
    split; [rewrite Hitems; reflexivity|].
    split; [exact Hcalls|].
    rewrite (Hq "P1"). reflexivity.
Defined.

Lemma clearCart_releases_the_whole_cart_witness :
  net_reserved "A" (events (clearCart "u1" world_two_lines)) = -3 /\
  cache (final (clearCart "u1" world_two_lines)) !! getCartKey "u1" = None.
Proof.
  destruct (clearCart_releases_the_whole_cart "u1" world_two_lines cart_two)
    as [Hnet Hgone].
  - vm_compute. reflexivity.
  - vm_compute. reflexivity.
  - split; [|exact Hgone]. rewrite Hnet. reflexivity.
Defined.

Lemma failed_mutation_leaves_carts_witness :
  cache (final (perform (UpdateCartItem "u1" "P1" (mkUpdateCartItemDto 10)) world_one_left))
    !! getCartKey "u1"
  = cache world_one_left !! getCartKey "u1".
Proof.
  apply (failed_mutation_leaves_carts
           (UpdateCartItem "u1" "P1" (mkUpdateCartItemDto 10)) world_one_left
           (BadRequestException "Cannot increase quantity. Only 5 available in stock.")).
  vm_compute. reflexivity.
Defined.

Lemma mutation_leaves_other_users_witness :
  cache (final (perform (AddToCart "u2" (mkAddToCartDto "P1" 1)) world_one_left))
    !! getCartKey "u1"
  = cache world_one_left !! getCartKey "u1".
Proof.
  apply (mutation_leaves_other_users (AddToCart "u2" (mkAddToCartDto "P1" 1))).
  simpl. discriminate.
Defined.

Lemma mutation_writes_only_own_key_witness :
  exists v,
    CacheSet "cart:u1" v 86400000
      ∈ events (perform (ToggleSelectAll "u1" false) world_two_lines) /\
    (("cart:u1" = getCartKey "u1" /\ 86400000 = 86400000 /\ exists c, v = ECart c) \/
     ("cart:u1" = probeKey world_two_lines /\ 86400000 = 10000 /\ v = EText "test")).
Proof.
  assert (Hin : exists v,
             CacheSet "cart:u1" v 86400000
               ∈ events (perform (ToggleSelectAll "u1" false) world_two_lines)).
  { cbn [perform].
    rewrite (toggleSelectAll_run "u1" false world_two_lines cart_two);
      [|vm_compute; reflexivity].
    cbv zeta. cbn [events]. eexists.
    apply elem_of_cons. right. apply elem_of_cons. left. reflexivity. }
  destruct Hin as [v Hin]. exists v. split; [exact Hin|].
  exact (proj1 (mutation_writes_only_own_key (ToggleSelectAll "u1" false) world_two_lines)
               _ _ _ Hin).
Defined.

Lemma mutation_result_is_read_back_witness :
  exists c' c'',
    result (perform (RemoveFromCart "u1" "P1") world_one_left) = Ok c' /\
    result (getCart "u1" (final (perform (RemoveFromCart "u1" "P1") world_one_left)))
    = Ok c'' /\
    items c'' = items c' /\ totalItems c'' = totalItems c' /\ totalPrice c'' = totalPrice c'.
Proof.
  destruct (result (perform (RemoveFromCart "u1" "P1") world_one_left))
    as [c'|e] eqn:Hres; [|vm_compute in Hres; discriminate Hres].
  destruct (mutation_result_is_read_back (RemoveFromCart "u1" "P1") world_one_left c' Hres)
    as (c'' & Hread & Hsame).
  exists c', c''. split; [reflexivity|]. split; [exact Hread|exact Hsame].
Defined.

Lemma one_line_per_product_preserved_witness :
  one_line_per_product
    (final (perform (AddToCart "u1" (mkAddToCartDto "P1" 2)) world_no_cart)).
Proof.
  apply one_line_per_product_preserved.
  intros key c Hc. simpl in Hc. rewrite lookup_empty in Hc. discriminate Hc.
Defined.

Lemma quantities_stay_positive_witness :
  quantities_positive
    (final (perform (AddToCart "u1" (mkAddToCartDto "P1" 2)) world_no_cart)).
Proof.
  apply quantities_stay_positive.
  - simpl. lia.
  - intros key c Hc. simpl in Hc. rewrite lookup_empty in Hc. discriminate Hc.
Defined.

Lemma updateCartItem_changes_one_quantity_witness :
  exists c',
    result (updateCartItem "u1" "P2" (mkUpdateCartItemDto 4) world_mixed) = Ok c' /\
    (exists l1 item l2,
       items cart_mixed = l1 ++ item :: l2 /\ productId item = "P2" /\
       Forall (fun x => productId x <> "P2") l1 /\
       items c' = l1 ++ mkCartItem (productId item) (productName item) (price item)
                                   (originalPrice item) (salePercentage item)
                                   4 (addedAt item) (selected item)
                     :: l2).
Proof.
  destruct (result (updateCartItem "u1" "P2" (mkUpdateCartItemDto 4) world_mixed))
    as [c'|e] eqn:Hres; [|vm_compute in Hres; discriminate Hres].
  exists c'. split; [reflexivity|].
  apply (updateCartItem_changes_one_quantity
           "u1" "P2" (mkUpdateCartItemDto 4) world_mixed cart_mixed c').
  - vm_compute. reflexivity.
  - exact Hres.
Defined.

Lemma removeFromCart_removes_first_line_witness :
  exists c' l1 item l2,
    result (removeFromCart "u1" "P2" world_mixed) = Ok c' /\
    items cart_mixed = l1 ++ item :: l2 /\ productId item = "P2" /\
    items c' = l1 ++ l2 /\
    inventory_calls (events (removeFromCart "u1" "P2" world_mixed))
    = [ReleaseReservation "P2" (quantity item)].
Proof.
  destruct (result (removeFromCart "u1" "P2" world_mixed))
    as [c'|e] eqn:Hres; [|vm_compute in Hres; discriminate Hres].
  destruct (removeFromCart_removes_first_line "u1" "P2" world_mixed cart_mixed c')
    as (l1 & item & l2 & Hl & Hid & _ & Hkept & Hcalls & _).
  - vm_compute. reflexivity.
  - exact Hres.
  - exists c', l1, item, l2. repeat split; assumption.
Defined.

Lemma toggleSelectItem_flags_first_line_witness :
  exists c',
    result (toggleSelectItem "u1" "P2" false world_mixed) = Ok c' /\
    totalItems c' = totalItems cart_mixed /\
    inventory_calls (events (toggleSelectItem "u1" "P2" false world_mixed)) = [].
Proof.
  destruct (result (toggleSelectItem "u1" "P2" false world_mixed))
    as [c'|e] eqn:Hres; [|vm_compute in Hres; discriminate Hres].
  destruct (toggleSelectItem_flags_first_line "u1" "P2" false world_mixed cart_mixed c')
    as (_ & Hq & _ & Hcalls & _).
  - vm_compute. reflexivity.
  - exact Hres.
  - exists c'. repeat split; assumption.
Defined.

Lemma toggleSelectAll_flags_every_line_witness :
  exists c',
    result (toggleSelectAll "u1" false world_two_lines) = Ok c' /\
    Forall (fun item => selected item = Some false) (items c') /\
    getSelectedItems c' = [].
Proof.
  destruct (toggleSelectAll_flags_every_line "u1" false world_two_lines cart_two)
    as (c' & Hres & Hall & _ & _ & _ & Hsel & _).
  - vm_compute. reflexivity.
  - exists c'. repeat split; assumption.
Defined.

Lemma select_all_then_remove_selected_witness :
  exists c2,
    result (removeSelectedItems "u1" (final (toggleSelectAll "u1" true world_two_lines)))
    = Ok c2 /\
    items c2 = [] /\
    inventory (final (removeSelectedItems
                        "u1" (final (toggleSelectAll "u1" true world_two_lines))))
    = inventory world_two_lines.
Proof.
  destruct (select_all_then_remove_selected "u1" world_two_lines cart_two)
    as (c2 & Hres & Hitems & _ & _ & Hinv).
  - vm_compute. reflexivity.
  - exists c2. repeat split; assumption.
Defined.

Lemma add_then_remove_restores_lines_witness :
  exists c2,
    result (removeFromCart "u1" "P1"
              (final (addToCart "u1" (mkAddToCartDto "P1" 2) world_p2)))
    = Ok c2 /\
    items c2 = items cart_p2 /\
    inventory_calls
      (events (addToCart "u1" (mkAddToCartDto "P1" 2) world_p2) ++
       events (removeFromCart "u1" "P1"
                 (final (addToCart "u1" (mkAddToCartDto "P1" 2) world_p2))))
    = [ReserveStock "P1" 2; ReleaseReservation "P1" 2].
Proof.
  destruct (add_then_remove_restores_lines
              "u1" (mkAddToCartDto "P1" 2) world_p2 P1 cart_p2
              {["P1" := mkStock 8 2; "P2" := mkStock 4 1]}
              {["P1" := mkStock 10 0; "P2" := mkStock 4 1]})
    as (c2 & Hres & Hitems & Hcalls & _).
  - vm_compute. reflexivity.
  - reflexivity.
  - reflexivity.
  - vm_compute. reflexivity.
  - vm_compute. reflexivity.
  - exists c2. repeat split; assumption.
Defined.


Lemma missing_line_is_not_found_witness :
  removeFromCart "u1" "P9" world_two_lines =
  mkOutcome (Throw (NotFoundException ("Product with ID " +:+ "P9" +:+ " not found in cart")))
            world_two_lines [CacheGet (getCartKey "u1")].
Proof.
  destruct (missing_line_is_not_found "u1" "P9" world_two_lines cart_two)
    as (_ & Hremove & _).
  - vm_compute. reflexivity.
  - repeat constructor; discriminate.
  - exact Hremove.
Defined.

Lemma getCartItemCount_counts_units_witness :
  getCartItemCount "u1" world_two_lines =
  mkOutcome (Ok (total_quantity (items cart_two))) world_two_lines
            [CacheGet (getCartKey "u1")].
Proof.
  apply getCartItemCount_counts_units.
  - intros key c Hc.
    destruct (decide (key = "cart:u1")) as [->|Hne].
    + vm_compute in Hc. injection Hc as <-. split; reflexivity.
    + unfold world_two_lines, sample_world in Hc. simpl in Hc.
      rewrite lookup_singleton_ne in Hc by congruence. discriminate Hc.
  - vm_compute. reflexivity.
Defined.

Lemma addToCart_unknown_product_reserves_nothing_witness :
  result (addToCart "u1" (mkAddToCartDto "P9" 1) world_one_left)
  = Throw (NotFoundException ("Product with ID " +:+ "P9" +:+ " not found")) /\
  inventory_calls (events (addToCart "u1" (mkAddToCartDto "P9" 1) world_one_left)) = [].
Proof.
  destruct (addToCart_unknown_product_reserves_nothing
              "u1" (mkAddToCartDto "P9" 1) world_one_left) as (Hres & Hcalls & _).
  - reflexivity.
  - split; [exact Hres|exact Hcalls].
Defined.

Lemma calculateFinalPrice_uncapped_witness :
  (calculateFinalPrice 1000 (Some 150%Q) < 0)%Q.
Proof.
  apply (calculateFinalPrice_uncapped
           1000 150 (-8796093022208000 # 17592186044416)).
  - vm_compute. reflexivity.
  - vm_compute. reflexivity.
  - reflexivity.
Defined.
